(** * Snake game simulation core: a shallow embedding

    The development follows [src/snake_game/game/snake_engine.py] and
    [src/snake_game/game/levels.py].  Python integers are unbounded, so
    coordinates, scores and levels are [Z]; Python lists are [list]; the
    module-level generator of [random] is an explicit piece of state that
    every operation threads; the two [while True] loops are bounded by a
    fuel argument, and running out of fuel is the outcome [Diverge].  A
    call that raises is the outcome [Raise]; what it had written to the
    object before raising is not kept. *)

From Stdlib Require Import ZArith List Bool Lia String Ascii.
From Stdlib Require Import DecimalString DecimalZ DecimalPos.
Import ListNotations.
Local Open Scope Z_scope.

(** ** Grid coordinates and Python list primitives *)

Definition coord : Type := (Z * Z)%type.

Definition coord_eqb (p q : coord) : bool :=
  (fst p =? fst q) && (snd p =? snd q).

(** [p in l] on a Python list of pairs. *)
Definition mem (p : coord) (l : list coord) : bool := existsb (coord_eqb p) l.

(** [range(a, b)]. *)
Definition py_range (a b : Z) : list Z :=
  map (fun i => a + Z.of_nat i) (seq 0 (Z.to_nat (b - a))).

(** [range(a, b, k)] for a positive step [k]. *)
Definition py_range_step (a b k : Z) : list Z :=
  map (fun i => a + k * Z.of_nat i) (seq 0 (Z.to_nat ((b - a + k - 1) / k))).

(** [for x in xs: acc = body(acc, x)]. *)
Definition for_each {A S : Type} (xs : list A) (body : S -> A -> S) (s : S) : S :=
  fold_left body xs s.

(** ** Python values

    The objects a query can hand back to its caller: integers, strings
    and tuples. *)

#[warnings="-register-all"] Inductive pyval : Type :=
| PyInt (n : Z)
| PyStr (s : string)
| PyTuple (items : list pyval).

(** ** Outcomes of a call *)

Inductive exn : Type := IndexError | ValueError.

Inductive result (A : Type) : Type :=
| Ok (a : A)
| Raise (e : exn)
| Diverge.
Arguments Ok {A} a.
Arguments Raise {A} e.
Arguments Diverge {A}.

(** ** The platform: the [random] module and the float trigonometry

    [random.seed(n)] puts the shared generator in a state that depends on
    [n] only; [random.randint(a, b)] with [a <= b] yields a value of
    [[a, b]] and advances the generator.  Level 5 computes
    [int(r * math.cos(math.radians(angle)))] in floating point: the two
    truncated products are taken from the platform. *)

Class PyRandom : Type := {
  rng : Type;
  rng_seed : Z -> rng;
  rng_draw : Z -> Z -> rng -> Z * rng;
  rng_draw_range : forall a b g, a <= b -> a <= fst (rng_draw a b g) <= b
}.

Class PyTrig : Type := {
  int_r_cos : Z -> Z -> Z;
  int_r_sin : Z -> Z -> Z
}.

Section Monad.
Context {R : PyRandom}.

(** A computation reads and writes the shared generator and may raise
    or fail to return. *)
Definition M (A : Type) : Type := rng -> result (A * rng).

Definition ret {A} (a : A) : M A := fun g => Ok (a, g).

Definition bind {A B} (m : M A) (k : A -> M B) : M B :=
  fun g => match m g with
           | Ok (a, g') => k a g'
           | Raise e => Raise e
           | Diverge => Diverge
           end.

Definition diverge {A} : M A := fun _ => Diverge.

(** [random.seed(n)] *)
Definition seed (n : Z) : M unit := fun _ => Ok (tt, rng_seed n).

(** [random.randint(a, b)]: [ValueError] on an empty range. *)
Definition randint (a b : Z) : M Z :=
  fun g => if b <? a then Raise ValueError else Ok (rng_draw a b g).

(** [for _ in range(n): s = body(s)] with an effectful body. *)
Fixpoint repeat_M {S : Type} (n : nat) (body : S -> M S) (s : S) : M S :=
  match n with
  | O => ret s
  | Datatypes.S n' => bind (body s) (repeat_M n' body)
  end.
End Monad.

Declare Scope py_scope.
Notation "x <- m ;; k" := (bind m (fun x => k))
  (at level 61, m at next level, right associativity) : py_scope.
Notation "' p <- m ;; k" := (bind m (fun x => let p := x in k))
  (at level 61, p pattern, m at next level, right associativity) : py_scope.
Notation "m ;;; k" := (bind m (fun _ => k))
  (at level 61, right associativity) : py_scope.
Local Open Scope py_scope.

(** ** Direction *)

Inductive Direction : Type := UP | DOWN | LEFT | RIGHT.

Definition value (d : Direction) : coord :=
  match d with
  | UP => (0, -1)
  | DOWN => (0, 1)
  | LEFT => (-1, 0)
  | RIGHT => (1, 0)
  end.

Definition Direction_eqb (a b : Direction) : bool :=
  match a, b with
  | UP, UP | DOWN, DOWN | LEFT, LEFT | RIGHT, RIGHT => true
  | _, _ => false
  end.

(** The opposite pairs: Up/Down and Left/Right. *)
Definition opposite_of (a b : Direction) : bool :=
  match a, b with
  | UP, DOWN | DOWN, UP | LEFT, RIGHT | RIGHT, LEFT => true
  | _, _ => false
  end.

(** ** Snake *)

Module Snake.
Record t : Type := mk {
  body : list coord;
  direction : Direction;
  grow_pending : bool
}.

(** [Snake(start_x, start_y)] *)
Definition __init__ (start_x start_y : Z) : t :=
  {| body := [(start_x, start_y)]; direction := RIGHT; grow_pending := false |}.

(** [move]: [self.body[0]] raises [IndexError] on an empty body; the
    returned pair is the new head and the snake after the call. *)
Definition move (s : t) : result (coord * t) :=
  match body s with
  | [] => Raise IndexError
  | (head_x, head_y) :: _ =>
      let '(dx, dy) := value (direction s) in
      let new_head := (head_x + dx, head_y + dy) in
      let inserted := new_head :: body s in
      if negb (grow_pending s)
      then Ok (new_head, {| body := removelast inserted;
                            direction := direction s;
                            grow_pending := grow_pending s |})
      else Ok (new_head, {| body := inserted;
                            direction := direction s;
                            grow_pending := false |})
  end.

Definition change_direction (s : t) (new_direction : Direction) : t :=
  if Direction_eqb (direction s) UP && Direction_eqb new_direction DOWN then s
  else if Direction_eqb (direction s) DOWN && Direction_eqb new_direction UP then s
  else if Direction_eqb (direction s) LEFT && Direction_eqb new_direction RIGHT then s
  else if Direction_eqb (direction s) RIGHT && Direction_eqb new_direction LEFT then s
  else {| body := body s; direction := new_direction; grow_pending := grow_pending s |}.

Definition grow (s : t) : t :=
  {| body := body s; direction := direction s; grow_pending := true |}.

Definition check_self_collision (s : t) : result bool :=
  match body s with
  | [] => Raise IndexError
  | head :: rest => Ok (mem head rest)
  end.

Definition get_head (s : t) : result coord :=
  match body s with
  | [] => Raise IndexError
  | head :: _ => Ok head
  end.

Definition get_body (s : t) : list coord := body s.
End Snake.

(** ** LevelManager.get_level_obstacles *)

Module LevelManager.
Section WithPlatform.
Context {R : PyRandom} {T : PyTrig}.

Definition level2 (width height : Z) : list coord :=
  let mid_x := width / 2 in
  let mid_y := height / 2 in
  let obstacles :=
    for_each (py_range (mid_y - 2) (mid_y + 3))
      (fun obstacles y =>
         if (0 <? y) && (y <? height - 1)
         then obstacles ++ [(mid_x, y)] else obstacles) [] in
  for_each (py_range (mid_x - 3) (mid_x + 4))
    (fun obstacles x =>
       if (0 <? x) && (x <? width - 1) && negb (mem (x, mid_y) obstacles)
       then obstacles ++ [(x, mid_y)] else obstacles) obstacles.

Definition level3 (width height : Z) : list coord :=
  let obstacles :=
    for_each (py_range 3 8)
      (fun obstacles x =>
         for_each (py_range 3 6)
           (fun obstacles y => obstacles ++ [(x, y)]) obstacles) [] in
  for_each (py_range (width - 8) (width - 3))
    (fun obstacles x =>
       for_each (py_range (height - 6) (height - 3))
         (fun obstacles y => obstacles ++ [(x, y)]) obstacles) obstacles.

Definition level4 (width height : Z) : list coord :=
  for_each (py_range 4 (height - 4))
    (fun obstacles y =>
       if y mod 4 =? 0 then
         let obstacles :=
           for_each (py_range 4 (width - 10))
             (fun obstacles x => obstacles ++ [(x, y)]) obstacles in
         for_each (py_range (width - 6) (width - 4))
           (fun obstacles x => obstacles ++ [(x, y)]) obstacles
       else obstacles) [].

Definition level5 (width height : Z) : list coord :=
  let center_x := width / 2 in
  let center_y := height / 2 in
  for_each (py_range 1 4)
    (fun obstacles r =>
       for_each (py_range_step 0 360 30)
         (fun obstacles angle =>
            let x := center_x + int_r_cos r angle in
            let y := center_y + int_r_sin r angle in
            if (1 <? x) && (x <? width - 2) && (1 <? y) && (y <? height - 2)
            then obstacles ++ [(x, y)] else obstacles) obstacles) [].

Definition level6 (width height : Z) : list coord :=
  let obstacles :=
    for_each (py_range 3 (width - 3))
      (fun obstacles x => (obstacles ++ [(x, 3)]) ++ [(x, height - 4)]) [] in
  for_each (py_range 3 (height - 3))
    (fun obstacles y => (obstacles ++ [(3, y)]) ++ [(width - 4, y)]) obstacles.

Definition level7 (width height : Z) : M (list coord) :=
  seed 42 ;;;
  repeat_M (Z.to_nat (Z.min 20 ((width * height) / 20)))
    (fun obstacles =>
       x <- randint 4 (width - 5) ;;
       y <- randint 4 (height - 5) ;;
       ret (obstacles ++ [(x, y)])) [].

Definition level8 (width height : Z) : list coord :=
  let center_x := width / 2 in
  let center_y := height / 2 in
  let size := Z.min width height / 4 in
  for_each (py_range (center_x - size) (center_x + size + 1))
    (fun obstacles x =>
       for_each (py_range (center_y - size) (center_y + size + 1))
         (fun obstacles y =>
            if Z.abs (x - center_x) + Z.abs (y - center_y) =? size then
              if (1 <? x) && (x <? width - 2) && (1 <? y) && (y <? height - 2)
              then obstacles ++ [(x, y)] else obstacles
            else obstacles) obstacles) [].

Definition level9 (width height : Z) : list coord :=
  let obstacles :=
    for_each (py_range_step 5 (width - 5) 3)
      (fun obstacles x =>
         for_each (py_range 2 (height - 2))
           (fun obstacles y =>
              if negb (y mod 4 =? 0) then obstacles ++ [(x, y)] else obstacles)
           obstacles) [] in
  for_each (py_range_step 5 (height - 5) 3)
    (fun obstacles y =>
       for_each (py_range 2 (width - 2))
         (fun obstacles x =>
            if negb (x mod 4 =? 0) then obstacles ++ [(x, y)] else obstacles)
         obstacles) obstacles.

Definition level10 (level width height : Z) : M (list coord) :=
  seed level ;;;
  let center_x := width / 2 in
  let center_y := height / 2 in
  let obstacles :=
    for_each (py_range (-2) 3)
      (fun obstacles i =>
         let obstacles :=
           if (1 <? center_x + i) && (center_x + i <? width - 2)
           then obstacles ++ [(center_x + i, center_y)] else obstacles in
         if (1 <? center_y + i) && (center_y + i <? height - 2)
         then obstacles ++ [(center_x, center_y + i)] else obstacles) [] in
  let num_obstacles := Z.min (30 + level) ((width * height) / 15) in
  repeat_M (Z.to_nat num_obstacles)
    (fun obstacles =>
       x <- randint 3 (width - 4) ;;
       y <- randint 3 (height - 4) ;;
       if negb (mem (x, y) obstacles)
       then ret (obstacles ++ [(x, y)]) else ret obstacles) obstacles.

(** The [if level == 1 ... elif level >= 10] chain; a level below 1
    falls through every branch and yields the empty list. *)
Definition get_level_obstacles (level width height : Z) : M (list coord) :=
  if level =? 1 then ret []
  else if level =? 2 then ret (level2 width height)
  else if level =? 3 then ret (level3 width height)
  else if level =? 4 then ret (level4 width height)
  else if level =? 5 then ret (level5 width height)
  else if level =? 6 then ret (level6 width height)
  else if level =? 7 then level7 width height
  else if level =? 8 then ret (level8 width height)
  else if level =? 9 then ret (level9 width height)
  else if level >=? 10 then level10 level width height
  else ret [].

Definition get_max_level : Z := 10.
End WithPlatform.
End LevelManager.

(** ** Food *)

Module Food.
Record t : Type := mk {
  width : Z;
  height : Z;
  obstacles : list coord;
  position : coord
}.

Section WithPlatform.
Context {R : PyRandom}.

(** The [while True] loop of [_generate_position], at most [fuel] rounds. *)
Fixpoint _generate_position (fuel : nat) (width height : Z)
    (obstacles : list coord) : M coord :=
  match fuel with
  | O => diverge
  | S fuel' =>
      x <- randint 1 (width - 2) ;;
      y <- randint 1 (height - 2) ;;
      if negb (mem (x, y) obstacles) then ret (x, y)
      else _generate_position fuel' width height obstacles
  end.

(** [Food(width, height, obstacles)]; [obstacles or []] is the list itself. *)
Definition __init__ (fuel : nat) (width height : Z) (obstacles : list coord) : M t :=
  position <- _generate_position fuel width height obstacles ;;
  ret {| width := width; height := height;
         obstacles := obstacles; position := position |}.

(** The [while True] loop of [regenerate], at most [fuel] rounds. *)
Fixpoint regenerate (fuel : nat) (self : t) (snake_body : list coord) : M t :=
  match fuel with
  | O => diverge
  | S fuel' =>
      x <- randint 1 (width self - 2) ;;
      y <- randint 1 (height self - 2) ;;
      let pos := (x, y) in
      if negb (mem pos snake_body) && negb (mem pos (obstacles self))
      then ret {| width := width self; height := height self;
                  obstacles := obstacles self; position := pos |}
      else regenerate fuel' self snake_body
  end.

Definition get_position (self : t) : coord := position self.

(** [self.food.obstacles = obstacles] *)
Definition set_obstacles (self : t) (obstacles : list coord) : t :=
  {| width := width self; height := height self;
     obstacles := obstacles; position := position self |}.
End WithPlatform.
End Food.

(** ** GameState *)

Module GameState.
Record t : Type := mk {
  width : Z;
  height : Z;
  score : Z;
  level : Z;
  foods_eaten : Z;
  foods_per_level : Z;
  game_over : bool;
  game_won : bool;
  max_level : Z;
  snake : Snake.t;
  food : Food.t
}.

Definition set_snake (g : t) (s : Snake.t) : t :=
  mk (width g) (height g) (score g) (level g) (foods_eaten g)
     (foods_per_level g) (game_over g) (game_won g) (max_level g) s (food g).

Definition set_food (g : t) (f : Food.t) : t :=
  mk (width g) (height g) (score g) (level g) (foods_eaten g)
     (foods_per_level g) (game_over g) (game_won g) (max_level g) (snake g) f.

Definition set_game_over (g : t) (b : bool) : t :=
  mk (width g) (height g) (score g) (level g) (foods_eaten g)
     (foods_per_level g) b (game_won g) (max_level g) (snake g) (food g).

Definition set_game_won (g : t) (b : bool) : t :=
  mk (width g) (height g) (score g) (level g) (foods_eaten g)
     (foods_per_level g) (game_over g) b (max_level g) (snake g) (food g).

Definition set_score (g : t) (n : Z) : t :=
  mk (width g) (height g) n (level g) (foods_eaten g)
     (foods_per_level g) (game_over g) (game_won g) (max_level g) (snake g) (food g).

Definition set_level (g : t) (n : Z) : t :=
  mk (width g) (height g) (score g) n (foods_eaten g)
     (foods_per_level g) (game_over g) (game_won g) (max_level g) (snake g) (food g).

Definition set_foods_eaten (g : t) (n : Z) : t :=
  mk (width g) (height g) (score g) (level g) n
     (foods_per_level g) (game_over g) (game_won g) (max_level g) (snake g) (food g).

Section WithPlatform.
Context {R : PyRandom} {T : PyTrig}.

(** A call that does not touch the generator. *)
Definition lift {A} (r : result A) : M A :=
  fun g => match r with
           | Ok a => Ok (a, g)
           | Raise e => Raise e
           | Diverge => Diverge
           end.

(** [GameState(width, height)] *)
Definition __init__ (fuel : nat) (width height : Z) : M t :=
  let start_x := width / 2 in
  let start_y := height / 2 in
  let snake := Snake.__init__ start_x start_y in
  obstacles <- LevelManager.get_level_obstacles 1 width height ;;
  food <- Food.__init__ fuel width height obstacles ;;
  food <- Food.regenerate fuel food (Snake.get_body snake) ;;
  ret {| width := width; height := height; score := 0; level := 1;
         foods_eaten := 0; foods_per_level := 5;
         game_over := false; game_won := false; max_level := 10;
         snake := snake; food := food |}.

Definition _advance_level (fuel : nat) (self : t) : M t :=
  if level self >=? max_level self then ret (set_game_won self true)
  else
    let self := set_level self (level self + 1) in
    let self := set_foods_eaten self 0 in
    let self := set_score self (score self + 50) in
    obstacles <- LevelManager.get_level_obstacles
                   (level self) (width self) (height self) ;;
    let self := set_food self (Food.set_obstacles (food self) obstacles) in
    food <- Food.regenerate fuel (food self) (Snake.get_body (snake self)) ;;
    ret (set_food self food).

(** [update]: the returned pair is the boolean result and the state
    after the call. *)
Definition update (fuel : nat) (self : t) : M (bool * t) :=
  if game_over self || game_won self then ret (false, self)
  else
    '(new_head, snake1) <- lift (Snake.move (snake self)) ;;
    let self := set_snake self snake1 in
    if (fst new_head <=? 0) || (fst new_head >=? width self - 1)
       || (snd new_head <=? 0) || (snd new_head >=? height self - 1)
    then ret (false, set_game_over self true)
    else
      obstacles <- LevelManager.get_level_obstacles
                     (level self) (width self) (height self) ;;
      if mem new_head obstacles
      then ret (false, set_game_over self true)
      else
        collided <- lift (Snake.check_self_collision (snake self)) ;;
        if collided
        then ret (false, set_game_over self true)
        else
          if coord_eqb new_head (Food.get_position (food self))
          then
            let self := set_snake self (Snake.grow (snake self)) in
            let self := set_score self (score self + 10) in
            let self := set_foods_eaten self (foods_eaten self + 1) in
            food <- Food.regenerate fuel (food self)
                      (Snake.get_body (snake self)) ;;
            let self := set_food self food in
            if foods_eaten self >=? foods_per_level self
            then self <- _advance_level fuel self ;; ret (true, self)
            else ret (true, self)
          else ret (true, self).

Definition change_snake_direction (self : t) (direction : Direction) : t :=
  set_snake self (Snake.change_direction (snake self) direction).

Definition get_obstacles (self : t) : M (list coord) :=
  LevelManager.get_level_obstacles (level self) (width self) (height self).

Definition is_game_over (self : t) : bool := game_over self.
Definition is_game_won (self : t) : bool := game_won self.
End WithPlatform.

(** [str(n)] for a Python integer. *)
Definition str (n : Z) : string := NilZero.string_of_int (Z.to_int n).

(** [get_progress]: the value of the f-string. *)
Definition get_progress (self : t) : pyval :=
  PyStr ("Level " ++ str (level self) ++ " - Food: " ++ str (foods_eaten self)
           ++ "/" ++ str (foods_per_level self))%string.
End GameState.

(** ** Play: the caller's sequence of calls on one GameState *)

Module Play.
Import GameState.

Inductive action : Type :=
| Tick                    (* game_state.update() *)
| Turn (d : Direction).   (* game_state.change_snake_direction(d) *)

(** The cell the head enters on the next move is the food cell. *)
Definition food_ahead (g : t) : bool :=
  match Snake.body (snake g) with
  | [] => false
  | (head_x, head_y) :: _ =>
      let '(dx, dy) := value (Snake.direction (snake g)) in
      coord_eqb (head_x + dx, head_y + dy) (Food.get_position (food g))
  end.

Section WithPlatform.
Context {R : PyRandom} {T : PyTrig}.

(** Runs the calls in order, counting the ticks on which food is eaten:
    those that pass every collision check ([update] returns [True]) with
    the food cell ahead. *)
Fixpoint run (fuel : nat) (acts : list action) (g : t) (eaten : nat)
  : M (t * nat) :=
  match acts with
  | [] => ret (g, eaten)
  | Turn d :: rest => run fuel rest (change_snake_direction g d) eaten
  | Tick :: rest =>
      '(continues, g') <- update fuel g ;;
      run fuel rest g' (if continues && food_ahead g then S eaten else eaten)
  end.

(** A game: construction at the given size, then the calls. *)
Definition play (fuel : nat) (width height : Z) (acts : list action)
  : M (t * nat) :=
  g0 <- __init__ fuel width height ;;
  run fuel acts g0 0%nat.

(** The states [(g, r)] a game can be in: [g] with the shared generator
    in state [r], after [eaten] food-eating ticks. *)
Definition reachable (g : t) (r : rng) (eaten : nat) : Prop :=
  exists fuel width height acts r0,
    play fuel width height acts r0 = Ok ((g, eaten), r).
End WithPlatform.
End Play.

(** ** Vocabulary of the properties *)

Module Tick.
Import GameState.

Definition terminal (g : t) : bool := game_over g || game_won g.

(** The fields no tick ever writes. *)
Definition same_board (g g' : t) : Prop :=
  width g' = width g /\ height g' = height g
  /\ foods_per_level g' = foods_per_level g /\ max_level g' = max_level g.

(** The counters and flags a tick without food leaves alone. *)
Definition same_counters (g g' : t) : Prop :=
  score g' = score g /\ level g' = level g /\ foods_eaten g' = foods_eaten g.

(** What one returning call of [update] did, by the branch it took. *)
Inductive outcome (g : t) : bool -> t -> Prop :=
| stopped :
    terminal g = true ->
    outcome g false g
| crashed g' :
    terminal g = false -> same_counters g g' ->
    game_over g' = true -> game_won g' = false ->
    outcome g false g'
| moved g' :
    terminal g = false -> Play.food_ahead g = false -> same_counters g g' ->
    game_over g' = false -> game_won g' = false ->
    outcome g true g'
| ate g' :
    terminal g = false -> Play.food_ahead g = true ->
    foods_eaten g + 1 < foods_per_level g ->
    score g' = score g + 10 -> level g' = level g ->
    foods_eaten g' = foods_eaten g + 1 ->
    game_over g' = false -> game_won g' = false ->
    outcome g true g'
| advanced g' :
    terminal g = false -> Play.food_ahead g = true ->
    foods_per_level g <= foods_eaten g + 1 -> level g < max_level g ->
    score g' = score g + 10 + 50 -> level g' = level g + 1 ->
    foods_eaten g' = 0 ->
    game_over g' = false -> game_won g' = false ->
    outcome g true g'
| won g' :
    terminal g = false -> Play.food_ahead g = true ->
    foods_per_level g <= foods_eaten g + 1 -> max_level g <= level g ->
    score g' = score g + 10 -> level g' = level g ->
    foods_eaten g' = foods_eaten g + 1 ->
    game_over g' = false -> game_won g' = true ->
    outcome g true g'.
End Tick.

(** The centered cross of the second level: five cells of the middle
    column and seven of the middle row, cut to the interior. *)
Definition centered_cross (width height : Z) (p : coord) : Prop :=
  (fst p = width / 2 /\ Z.abs (snd p - height / 2) <= 2
   /\ 0 < snd p < height - 1)
  \/ (snd p = height / 2 /\ Z.abs (fst p - width / 2) <= 3
      /\ 0 < fst p < width - 1).

(** The counters of a game that started at level 1 and has eaten [n]
    foods, up to the fifth. *)
Definition progress (n : nat) (g : GameState.t) : Prop :=
  GameState.foods_per_level g = 5 /\ GameState.max_level g = 10
  /\ ((n < 5)%nat ->
      GameState.level g = 1 /\ GameState.foods_eaten g = Z.of_nat n
      /\ GameState.score g = 10 * Z.of_nat n)
  /\ (n = 5%nat ->
      GameState.level g = 2 /\ GameState.foods_eaten g = 0
      /\ GameState.score g = 100).

(** Every cell of the list lies strictly inside the border ring. *)
Definition inside (width height : Z) (l : list coord) : Prop :=
  forall p, In p l -> 0 < fst p < width - 1 /\ 0 < snd p < height - 1.

(** [c] occurs in [s]. *)
Fixpoint occurs (c : ascii) (s : string) : bool :=
  match s with
  | EmptyString => false
  | String a s' => Ascii.eqb a c || occurs c s'
  end.

(** ** A concrete platform

    A generator that reads its values from a tape (a value outside the
    requested interval is replaced by the lower bound), and the truncated
    products [int(r * cos)], [int(r * sin)] of the twelve angles. *)

Module Scripted.
Definition pairs (l : list coord) : list Z :=
  flat_map (fun p => [fst p; snd p]) l.

Definition row (y : Z) (xs : list Z) : list coord := map (fun x => (x, y)) xs.
Definition col (x : Z) (ys : list Z) : list coord := map (fun y => (x, y)) ys.

(** The cells the head visits in the sample game on the 30 x 20 board. *)
Definition path : list coord :=
  row 10 (py_range 16 29) ++ col 28 (py_range 11 19)
    ++ row 18 (rev (py_range 1 28)) ++ col 1 [17; 16].

Definition cell (n : nat) : coord := nth (n - 1) path (1, 1).
Definition cells (a b : nat) : list coord :=
  map cell (seq a (b + 1 - a)).

Definition tape_start : list Z :=
  pairs ([(1, 1)] ++ cells 1 5 ++ [cell 6] ++ cells 6 10 ++ [cell 11]
           ++ cells 11 15 ++ [cell 16] ++ cells 16 20 ++ [cell 21]
           ++ cells 21 25 ++ [cell 26] ++ cells 26 30 ++ [cell 31]).

Definition tape_42 : list Z :=
  pairs (repeat (4, 4) 20 ++ cells 31 35 ++ [cell 36] ++ cells 36 40
           ++ [cell 41] ++ cells 41 45 ++ [cell 46]).

Definition tape_10 : list Z :=
  pairs (repeat (3, 3) 40 ++ cells 46 50 ++ [(2, 2)]).

Definition draw (a b : Z) (g : list Z) : Z * list Z :=
  match g with
  | [] => (a, [])
  | v :: g' => (if (a <=? v) && (v <=? b) then v else a, g')
  end.

Lemma draw_range a b g : a <= b -> a <= fst (draw a b g) <= b.
Proof.
  intros Hab. destruct g as [|v g']; simpl; [lia|].
  destruct (a <=? v) eqn:Ha; simpl; [|lia].
  destruct (v <=? b) eqn:Hb; simpl; lia.
Qed.

#[export] Instance random : PyRandom := {|
  rng := list Z;
  rng_seed := fun n => if n =? 42 then tape_42 else if n =? 10 then tape_10 else [];
  rng_draw := draw;
  rng_draw_range := draw_range
|}.

(** [int(r * math.cos(math.radians(angle)))] and
    [int(r * math.sin(math.radians(angle)))] for the radii 1 to 3 and the
    twelve angles of level 5, as double-precision arithmetic gives them:
    [2 * cos 120] is [-0.9999999999999996] and [2 * sin 30] is
    [0.9999999999999999], and both truncate to 0. *)
Definition cos_table (r : Z) : list Z :=
  if r =? 1 then [1; 0; 0; 0; 0; 0; -1; 0; 0; 0; 0; 0]
  else if r =? 2 then [2; 1; 1; 0; 0; -1; -2; -1; -1; 0; 1; 1]
  else [3; 2; 1; 0; -1; -2; -3; -2; -1; 0; 1; 2].

Definition sin_table (r : Z) : list Z :=
  if r =? 1 then [0; 0; 0; 1; 0; 0; 0; 0; 0; -1; 0; 0]
  else if r =? 2 then [0; 0; 1; 2; 1; 0; 0; -1; -1; -2; -1; -1]
  else [0; 1; 2; 3; 2; 1; 0; -1; -2; -3; -2; -1].

#[export] Instance trig : PyTrig := {|
  int_r_cos := fun r angle => nth (Z.to_nat (angle / 30)) (cos_table r) 0;
  int_r_sin := fun r angle => nth (Z.to_nat (angle / 30)) (sin_table r) 0
|}.

(** The sample game: the food is always one cell ahead. *)
Definition game : list Play.action :=
    repeat Play.Tick 13 ++ [Play.Turn DOWN] ++ repeat Play.Tick 8
      ++ [Play.Turn LEFT] ++ repeat Play.Tick 27 ++ [Play.Turn UP]
      ++ repeat Play.Tick 2.

Definition level10_obstacles : list coord :=
  [(13, 10); (15, 8); (14, 10); (15, 9); (15, 10); (15, 10);
   (16, 10); (15, 11); (17, 10); (15, 12); (3, 3)].

(** The sample game one tick before its last: level 10, four foods
    eaten, the fifth one cell ahead. *)
Definition before_win : GameState.t :=
  {| GameState.width := 30; GameState.height := 20;
     GameState.score := 940; GameState.level := 10;
     GameState.foods_eaten := 4; GameState.foods_per_level := 5;
     GameState.game_over := false; GameState.game_won := false;
     GameState.max_level := 10;
     GameState.snake :=
       {| Snake.body := rev (firstn 49 path);
          Snake.direction := UP; Snake.grow_pending := true |};
     GameState.food :=
       {| Food.width := 30; Food.height := 20;
          Food.obstacles := level10_obstacles; Food.position := (1, 16) |} |}.

(** The sample game after its last tick. *)
Definition after_win : GameState.t :=
  {| GameState.width := 30; GameState.height := 20;
     GameState.score := 950; GameState.level := 10;
     GameState.foods_eaten := 5; GameState.foods_per_level := 5;
     GameState.game_over := false; GameState.game_won := true;
     GameState.max_level := 10;
     GameState.snake :=
       {| Snake.body := rev path;
          Snake.direction := UP; Snake.grow_pending := true |};
     GameState.food :=
       {| Food.width := 30; Food.height := 20;
          Food.obstacles := level10_obstacles; Food.position := (2, 2) |} |}.

(** A game on the empty tape (food at (1, 1)) that runs straight into
    the right wall on its fourteenth tick. *)
Definition crashed : GameState.t :=
  {| GameState.width := 30; GameState.height := 20;
     GameState.score := 0; GameState.level := 1;
     GameState.foods_eaten := 0; GameState.foods_per_level := 5;
     GameState.game_over := true; GameState.game_won := false;
     GameState.max_level := 10;
     GameState.snake :=
       {| Snake.body := [(29, 10)];
          Snake.direction := RIGHT; Snake.grow_pending := false |};
     GameState.food :=
       {| Food.width := 30; Food.height := 20;
          Food.obstacles := []; Food.position := (1, 1) |} |}.
End Scripted.

(** * The text side of the levels and the display *)

(** ** LevelManager: descriptions and the final level *)

Module Levels.
(** [get_level_description]: the table for levels 1 to 10, the f-string
    for every other level. *)
Definition get_level_description (level : Z) : string :=
  if level =? 1 then "Open Field - Learn the basics"
  else if level =? 2 then "Cross Roads - Navigate around obstacles"
  else if level =? 3 then "Corner Blocks - Use the corners wisely"
  else if level =? 4 then "Corridors - Find your path through"
  else if level =? 5 then "Spiral Challenge - Navigate the spiral"
  else if level =? 6 then "Border Patrol - Avoid the border obstacles"
  else if level =? 7 then "Scattered Chaos - Random obstacles everywhere"
  else if level =? 8 then "Diamond Mine - Navigate the diamond pattern"
  else if level =? 9 then "Complex Maze - Advanced navigation required"
  else if level =? 10 then "Master Challenge - Ultimate test of skill"
  else ("Expert Level " ++ GameState.str level ++ " - Maximum difficulty!")%string.

Definition is_final_level (level : Z) : bool :=
  level >=? LevelManager.get_max_level.
End Levels.

(** ** GameDisplay

    A Python string is the Rocq string of its UTF-8 bytes; a screen is
    the list of the lines it prints, in order.  Clearing the terminal is
    outside the model. *)

Module GameDisplay.
Import GameState.

(** The display characters and the colour escapes that [__init__] sets;
    [ESC] is the character the source writes as backslash 033. *)
Definition WALL : string := "█".
Definition SNAKE_HEAD : string := "●".
Definition SNAKE_BODY : string := "○".
Definition FOOD : string := "@".
Definition OBSTACLE : string := "■".
Definition EMPTY : string := " ".

Definition ESC : string := String "027"%char EmptyString.
Definition RESET : string := (ESC ++ "[0m")%string.
Definition GREEN : string := (ESC ++ "[92m")%string.
Definition RED : string := (ESC ++ "[91m")%string.
Definition YELLOW : string := (ESC ++ "[93m")%string.
Definition BLUE : string := (ESC ++ "[94m")%string.
Definition CYAN : string := (ESC ++ "[96m")%string.

(** [s * n] on a Python string. *)
Definition times (s : string) (n : Z) : string :=
  String.concat "" (repeat s (Z.to_nat n)).

(** [_colored_char]: the value of the f-string; formatting three strings
    raises nothing, so the [except] branch is never taken. *)
Definition _colored_char (char color : string) : string :=
  (color ++ char ++ RESET)%string.

Section WithPlatform.
Context {R : PyRandom} {T : PyTrig}.

(** [_render_field]: the lines it prints, top border first. *)
Definition _render_field (game_state : t) : M (list string) :=
  let width := GameState.width game_state in
  let height := GameState.height game_state in
  let snake_body := Snake.get_body (snake game_state) in
  snake_head <- lift (Snake.get_head (snake game_state)) ;;
  let food_pos := Food.get_position (food game_state) in
  obstacles <- get_obstacles game_state ;;
  let border := ("+" ++ times WALL width ++ "+")%string in
  let rows :=
    for_each (py_range 0 height)
      (fun printed y =>
         let row :=
           for_each (py_range 0 width)
             (fun row x =>
                let pos := (x, y) in
                let char :=
                  if (x =? 0) || (x =? width - 1)
                     || (y =? 0) || (y =? height - 1) then WALL
                  else if coord_eqb pos snake_head
                  then _colored_char SNAKE_HEAD GREEN
                  else if mem pos (tl snake_body)
                  then _colored_char SNAKE_BODY GREEN
                  else if coord_eqb pos food_pos
                  then _colored_char FOOD RED
                  else if mem pos obstacles
                  then _colored_char OBSTACLE BLUE
                  else EMPTY in
                (row ++ char)%string)
             "|"%string in
         printed ++ [(row ++ "|")%string])
      [] in
  ret ([border] ++ rows ++ [border]).
End WithPlatform.

(** [show_game_over]: the lines it prints. *)
Definition show_game_over (game_state : t) : result (list string) :=
  let header := ["🐍 SNAKE GAME 🐍"; times "=" 50; ""]%string in
  match
    (if is_game_won game_state
     then Ok ["🎉 CONGRATULATIONS! 🎉"; "You completed all levels!"]%string
     else
       match Snake.check_self_collision (snake game_state) with
       | Ok true => Ok ["💀 GAME OVER 💀"; "You bit yourself!"]%string
       | Ok false => Ok ["💀 GAME OVER 💀"; "You hit a wall or obstacle!"]%string
       | Raise e => Raise e
       | Diverge => Diverge
       end)
  with
  | Ok verdict =>
      Ok (header ++ verdict
            ++ [""; ("Final Score: " ++ str (score game_state));
                ("Level Reached: " ++ str (level game_state));
                ("Total Food Eaten: "
                   ++ str (foods_eaten game_state
                           + (level game_state - 1) * foods_per_level game_state))]%string
            ++ (if level game_state >? 1
                then [("Levels Completed: " ++ str (level game_state - 1))%string]
                else [])
            ++ [""; times "=" 50]%string)
  | Raise e => Raise e
  | Diverge => Diverge
  end.

(** [show_level_complete]: the lines it prints. *)
Definition show_level_complete (game_state : t) : list string :=
  ["🐍 SNAKE GAME 🐍"; times "=" 50; "";
   "🎉 LEVEL COMPLETE! 🎉"; "";
   "Level " ++ str (level game_state - 1) ++ " completed!";
   "Score: " ++ str (score game_state);
   "Bonus: +50 points"; ""]%string
  ++ (if level game_state <=? LevelManager.get_max_level
      then ["Next: Level " ++ str (level game_state);
            Levels.get_level_description (level game_state);
            ""; "Press any key to continue..."]%string
      else ["🏆 ALL LEVELS COMPLETED! 🏆"; "You are a Snake Master!"]%string)
  ++ [""; times "=" 50]%string.

(** Vocabulary for the printed field: the line that a row of cell
    texts makes, the lines that a grid of rows makes, the text of the
    cell [p] of a grid, and the six texts a cell can hold. *)
Definition row_text (cells : list string) : string :=
  ("|" ++ String.concat "" cells ++ "|")%string.

Definition field_text (width : Z) (grid : list (list string)) : list string :=
  let border := ("+" ++ times WALL width ++ "+")%string in
  [border] ++ map row_text grid ++ [border].

Definition cell_at (grid : list (list string)) (p : coord) : string :=
  nth (Z.to_nat (fst p)) (nth (Z.to_nat (snd p)) grid []) EmptyString.

Definition cell_texts : list string :=
  [WALL; _colored_char SNAKE_HEAD GREEN; _colored_char SNAKE_BODY GREEN;
   _colored_char FOOD RED; _colored_char OBSTACLE BLUE; EMPTY].

(** The text of the cell [(x, y)], as the inner loop of [_render_field]
    chooses it. *)
Definition char_at (g : t) (head : coord) (obstacles : list coord)
    (x y : Z) : string :=
  if (x =? 0) || (x =? width g - 1) || (y =? 0) || (y =? height g - 1)
  then WALL
  else if coord_eqb (x, y) head then _colored_char SNAKE_HEAD GREEN
  else if mem (x, y) (tl (Snake.get_body (snake g)))
  then _colored_char SNAKE_BODY GREEN
  else if coord_eqb (x, y) (Food.get_position (food g))
  then _colored_char FOOD RED
  else if mem (x, y) obstacles then _colored_char OBSTACLE BLUE
  else EMPTY.
End GameDisplay.

(** ** Vocabulary of the reachable states *)

Module Step.
Import GameState.

(** The wall test of [update]. *)
Definition on_border (width height : Z) (p : coord) : bool :=
  (fst p <=? 0) || (fst p >=? width - 1)
  || (snd p <=? 0) || (snd p >=? height - 1).

(** The state right after the food branch of [update] has run
    [grow], the two counter updates and [regenerate]. *)
Definition fed (g : t) (s1 : Snake.t) (food1 : Food.t) : t :=
  set_food
    (set_foods_eaten
       (set_score (set_snake g (Snake.grow s1)) (score g + 10))
       (foods_eaten g + 1))
    food1.

Section WithPlatform.
Context {R : PyRandom} {T : PyTrig}.

(** One returning call of [update], by the path it took through the
    body, with the values it computed on the way. *)
Inductive path (fuel : nat) (g : t) (r : rng) : bool -> t -> rng -> Prop :=
| stopped :
    Tick.terminal g = true ->
    path fuel g r false g r
| hit_wall new_head s1 :
    Tick.terminal g = false ->
    Snake.move (snake g) = Ok (new_head, s1) ->
    on_border (width g) (height g) new_head = true ->
    path fuel g r false (set_game_over (set_snake g s1) true) r
| hit_obstacle new_head s1 obstacles r1 :
    Tick.terminal g = false ->
    Snake.move (snake g) = Ok (new_head, s1) ->
    on_border (width g) (height g) new_head = false ->
    LevelManager.get_level_obstacles (level g) (width g) (height g) r
    = Ok (obstacles, r1) ->
    mem new_head obstacles = true ->
    path fuel g r false (set_game_over (set_snake g s1) true) r1
| hit_self new_head s1 obstacles r1 :
    Tick.terminal g = false ->
    Snake.move (snake g) = Ok (new_head, s1) ->
    on_border (width g) (height g) new_head = false ->
    LevelManager.get_level_obstacles (level g) (width g) (height g) r
    = Ok (obstacles, r1) ->
    mem new_head obstacles = false ->
    Snake.check_self_collision s1 = Ok true ->
    path fuel g r false (set_game_over (set_snake g s1) true) r1
| moved new_head s1 obstacles r1 :
    Tick.terminal g = false ->
    Snake.move (snake g) = Ok (new_head, s1) ->
    on_border (width g) (height g) new_head = false ->
    LevelManager.get_level_obstacles (level g) (width g) (height g) r
    = Ok (obstacles, r1) ->
    mem new_head obstacles = false ->
    Snake.check_self_collision s1 = Ok false ->
    Play.food_ahead g = false ->
    path fuel g r true (set_snake g s1) r1
| ate new_head s1 obstacles r1 food1 r2 :
    Tick.terminal g = false ->
    Snake.move (snake g) = Ok (new_head, s1) ->
    on_border (width g) (height g) new_head = false ->
    LevelManager.get_level_obstacles (level g) (width g) (height g) r
    = Ok (obstacles, r1) ->
    mem new_head obstacles = false ->
    Snake.check_self_collision s1 = Ok false ->
    Play.food_ahead g = true ->
    Food.regenerate fuel (food g) (Snake.body s1) r1 = Ok (food1, r2) ->
    foods_eaten g + 1 < foods_per_level g ->
    path fuel g r true (fed g s1 food1) r2
| completed new_head s1 obstacles r1 food1 r2 g' r' :
    Tick.terminal g = false ->
    Snake.move (snake g) = Ok (new_head, s1) ->
    on_border (width g) (height g) new_head = false ->
    LevelManager.get_level_obstacles (level g) (width g) (height g) r
    = Ok (obstacles, r1) ->
    mem new_head obstacles = false ->
    Snake.check_self_collision s1 = Ok false ->
    Play.food_ahead g = true ->
    Food.regenerate fuel (food g) (Snake.body s1) r1 = Ok (food1, r2) ->
    foods_per_level g <= foods_eaten g + 1 ->
    _advance_level fuel (fed g s1 food1) r2 = Ok (g', r') ->
    path fuel g r true g' r'.
End WithPlatform.
End Step.

(** A cell strictly inside the border ring. *)
Definition interior (width height : Z) (p : coord) : Prop :=
  0 < fst p < width - 1 /\ 0 < snd p < height - 1.

Section Sound.
Context {R : PyRandom} {T : PyTrig}.
Import GameState.

(** What holds of the state of a game on a [width] x [height] board
    after [eaten] food-eating ticks. *)
Record sound (width height : Z) (eaten : nat) (g : t) : Prop := {
  sound_width : GameState.width g = width;
  sound_height : GameState.height g = height;
  sound_threshold : foods_per_level g = 5;
  sound_max_level : max_level g = 10;
  sound_food_board :
    Food.width (food g) = width /\ Food.height (food g) = height;
  sound_size : 3 <= width /\ 3 <= height;
  sound_level : 1 <= level g <= 10;
  sound_eaten : foods_eaten g + 5 * (level g - 1) = Z.of_nat eaten;
  sound_score : score g = 10 * Z.of_nat eaten + 50 * (level g - 1);
  sound_foods_eaten :
    0 <= foods_eaten g
    /\ (if game_won g then foods_eaten g = 5 /\ level g = 10
        else foods_eaten g < 5);
  sound_flags : game_over g && game_won g = false;
  sound_length :
    (List.length (Snake.body (snake g))
     + (if Snake.grow_pending (snake g) then 1 else 0) = 1 + eaten)%nat;
  sound_body :
    exists head tail,
      Snake.body (snake g) = head :: tail
      /\ inside width height tail
      /\ NoDup tail
      /\ (game_over g = false -> interior width height head /\ ~ In head tail)
      /\ (game_over g = true ->
          Step.on_border width height head = true
          \/ In head (Food.obstacles (food g))
          \/ In head tail);
  sound_food :
    1 <= fst (Food.position (food g)) <= width - 2
    /\ 1 <= snd (Food.position (food g)) <= height - 2
    /\ ~ In (Food.position (food g)) (Snake.body (snake g))
    /\ ~ In (Food.position (food g)) (Food.obstacles (food g));
  sound_obstacles :
    forall r, exists r',
      LevelManager.get_level_obstacles (level g) width height r
      = Ok (Food.obstacles (food g), r');
  sound_seventh :
    7 <= level g ->
    exists r obstacles r',
      LevelManager.get_level_obstacles 7 width height r = Ok (obstacles, r')
}.
End Sound.

(** The outcome of a call without the generator it leaves behind. *)
Definition forget {R : PyRandom} {A : Type} (o : result (A * rng)) : result A :=
  match o with
  | Ok (a, _) => Ok a
  | Raise e => Raise e
  | Diverge => Diverge
  end.

(** A snake of three cells heading right at (10, 5), for the sample
    turns. *)
Definition three_cells : GameState.t :=
  {| GameState.width := 30; GameState.height := 20;
     GameState.score := 20; GameState.level := 1;
     GameState.foods_eaten := 2; GameState.foods_per_level := 5;
     GameState.game_over := false; GameState.game_won := false;
     GameState.max_level := 10;
     GameState.snake :=
       {| Snake.body := [(10, 5); (9, 5); (8, 5)];
          Snake.direction := RIGHT; Snake.grow_pending := false |};
     GameState.food :=
       {| Food.width := 30; Food.height := 20;
          Food.obstacles := []; Food.position := (20, 15) |} |}.

(** * Properties *)

(** ** Lists, ranges and membership *)

Lemma coord_eqb_eq (p q : coord) : coord_eqb p q = true <-> p = q.
Proof.
  destruct p as [px py], q as [qx qy]; unfold coord_eqb; simpl.
  rewrite andb_true_iff, !Z.eqb_eq. split.
  - intros [-> ->]; reflexivity.
  - intros [= -> ->]; split; reflexivity.
Qed.

Lemma mem_In (p : coord) (l : list coord) : mem p l = true <-> In p l.
Proof.
  unfold mem. rewrite existsb_exists. split.
  - intros [q [Hq Heq]]. apply coord_eqb_eq in Heq. now subst.
  - intros Hp. exists p. split; [assumption | now apply coord_eqb_eq].
Qed.

Lemma mem_false (p : coord) (l : list coord) : mem p l = false <-> ~ In p l.
Proof.
  rewrite <- mem_In. destruct (mem p l); split; congruence.
Qed.

Lemma In_py_range (a b x : Z) : In x (py_range a b) <-> a <= x < b.
Proof.
  unfold py_range. rewrite in_map_iff. split.
  - intros [i [<- Hi]]. apply in_seq in Hi. lia.
  - intros Hx. exists (Z.to_nat (x - a)). split; [lia|].
    apply in_seq. lia.
Qed.

Lemma In_py_range_step (a b k x : Z) :
  0 < k -> In x (py_range_step a b k) -> a <= x < b.
Proof.
  intros Hk. unfold py_range_step. rewrite in_map_iff.
  intros [i [<- Hi]]. apply in_seq in Hi.
  destruct (Z_lt_le_dec a b) as [Hab|Hab].
  - assert (Hq : Z.of_nat i < (b - a + k - 1) / k) by lia.
    assert (Hm : k * ((b - a + k - 1) / k) <= b - a + k - 1)
      by (apply Z.mul_div_le; lia).
    nia.
  - assert (Hz : (b - a + k - 1) / k <= 0).
    { apply Z.lt_succ_r. apply Z.div_lt_upper_bound; lia. }
    lia.
Qed.

(** An invariant of the accumulator survives a [for] loop. *)
Lemma for_each_invariant {A S : Type} (P : S -> Prop) (xs : list A)
    (body : S -> A -> S) (s : S) :
  P s ->
  (forall acc x, In x xs -> P acc -> P (body acc x)) ->
  P (for_each xs body s).
Proof.
  unfold for_each. revert s.
  induction xs as [|x xs IH]; intros s Hs Hstep; simpl; [assumption|].
  apply IH.
  - apply Hstep; [now left | assumption].
  - intros acc y Hy. apply Hstep. now right.
Qed.

Lemma length_removelast_cons {A : Type} (a : A) (l : list A) :
  List.length (removelast (a :: l)) = List.length l.
Proof.
  revert a. induction l as [|b l IH]; intros a; [reflexivity|].
  change (removelast (a :: b :: l)) with (a :: removelast (b :: l)).
  cbn [List.length]. f_equal. apply IH.
Qed.

(** ** Snake *)

Section SnakeFacts.
Import Snake.

(** C6 — [Snake.move] on a snake whose body is [h :: rest] returns
    [h + direction vector]; that cell is the first element of the new
    body; without pending growth the rest of the new body is the old
    body less its last element (same length), with pending growth it is
    the whole old body (length plus one) and the flag is cleared; the
    direction is untouched. *)
Theorem move_head_and_tail (s : Snake.t) (h : coord) (rest : list coord) :
  body s = h :: rest ->
  let new_head := (fst h + fst (value (direction s)),
                   snd h + snd (value (direction s))) in
  exists s',
    move s = Ok (new_head, s')
    /\ hd_error (body s') = Some new_head
    /\ direction s' = direction s
    /\ grow_pending s' = false
    /\ (grow_pending s = false ->
        body s' = new_head :: removelast (body s)
        /\ List.length (body s') = List.length (body s))
    /\ (grow_pending s = true ->
        body s' = new_head :: body s
        /\ List.length (body s') = S (List.length (body s))).
Proof.
  intros Hb new_head. unfold move. rewrite Hb. destruct h as [hx hy].
  subst new_head. destruct (value (direction s)) as [dx dy].
  simpl fst; simpl snd.
  destruct (grow_pending s) eqn:Hg; simpl negb; cbv iota; eexists;
    (split; [reflexivity|]); cbn [body direction grow_pending].
  - split; [reflexivity|]. split; [reflexivity|]. split; [reflexivity|].
    split; [discriminate|]. intros _. split; reflexivity.
  - split; [reflexivity|]. split; [reflexivity|]. split; [reflexivity|].
    split; [|discriminate]. intros _. split; [reflexivity|].
    apply length_removelast_cons.
Qed.
End SnakeFacts.

(** ** One tick of the game *)

Section GameStateFacts.
Context {R : PyRandom} {T : PyTrig}.
Import GameState.

(** Case analysis on the scrutinee of the outermost [match] or [if] of a
    hypothesis about a monadic computation. *)
Ltac split_outer H :=
  match type of H with
  | match ?x with _ => _ end = _ =>
      let E := fresh "E" in destruct x eqn:E; try discriminate H
  | (if ?x then _ else _) _ = _ =>
      let E := fresh "E" in destruct x eqn:E; try discriminate H
  | (let '(_, _) := ?x in _) _ = _ =>
      let E := fresh "E" in destruct x eqn:E
  end.

Lemma advance_level_cases fuel g r g' r' :
  _advance_level fuel g r = Ok (g', r') ->
  Tick.same_board g g' /\ snake g' = snake g
  /\ game_over g' = game_over g
  /\ ((max_level g <= level g /\ g' = set_game_won g true /\ r' = r)
      \/ (level g < max_level g /\ level g' = level g + 1
          /\ foods_eaten g' = 0 /\ score g' = score g + 50
          /\ game_won g' = game_won g)).
Proof.
  unfold _advance_level. intros H.
  destruct (level g >=? max_level g) eqn:Hmax.
  - unfold ret in H. injection H as <- <-.
    repeat split. left. repeat split. lia.
  - unfold bind in H. repeat split_outer H.
    unfold ret in H. injection H as <- <-.
    repeat split. right. repeat split. lia.
Qed.

(** Inversion of one [bind] whose first computation returned. *)
Ltac bind_inv H a r E :=
  unfold bind at 1 in H;
  match type of H with
  | match ?x with _ => _ end = _ =>
      destruct x as [[a r]| |] eqn:E; try discriminate H
  end.

Lemma move_food_ahead g new_head s1 :
  Snake.move (snake g) = Ok (new_head, s1) ->
  coord_eqb new_head (Food.get_position (food g)) = Play.food_ahead g.
Proof.
  unfold Snake.move, Play.food_ahead.
  destruct (Snake.body (snake g)) as [|[hx hy] rest]; [discriminate|].
  destruct (value (Snake.direction (snake g))) as [dx dy].
  destruct (negb (Snake.grow_pending (snake g))); intros [= <- _]; reflexivity.
Qed.

Lemma update_cases fuel g r ok g' r' :
  update fuel g r = Ok ((ok, g'), r') ->
  Tick.same_board g g' /\ Tick.outcome g ok g'.
Proof.
  unfold update. intros H.
  destruct (game_over g || game_won g) eqn:Hterm.
  - unfold ret in H. injection H as <- <- <-.
    split; [repeat split|]. now apply Tick.stopped.
  - destruct (orb_false_elim _ _ Hterm) as [Hover Hwon].
    unfold bind at 1 in H. unfold lift at 1 in H.
    destruct (Snake.move (snake g)) as [[new_head s1]| |] eqn:Hmove; try discriminate H.
    pose proof (move_food_ahead _ _ _ Hmove) as Hahead.
    cbn beta iota in H.
    split_outer H.
    + unfold ret in H. injection H as <- <- <-.
      split; [repeat split|]. apply Tick.crashed; try assumption; repeat split.
    + bind_inv H obstacles r1 Hobs.
      split_outer H.
      * unfold ret in H. injection H as <- <- <-.
        split; [repeat split|]. apply Tick.crashed; try assumption; repeat split.
      * unfold bind at 1 in H. unfold lift at 1 in H.
        cbn [snake set_snake] in H.
        destruct (Snake.check_self_collision s1) as [collided| |] eqn:Hself;
          try discriminate H.
        cbn beta iota in H. destruct collided.
        -- unfold ret in H. injection H as <- <- <-.
           split; [repeat split|]. apply Tick.crashed; try assumption; repeat split.
        -- cbn [food set_snake] in H. rewrite Hahead in H.
           destruct (Play.food_ahead g) eqn:Hfood.
           ++ bind_inv H food1 r2 Hregen.
              cbn [foods_eaten foods_per_level set_food set_foods_eaten set_score set_snake] in H.
              destruct (foods_eaten g + 1 >=? foods_per_level g) eqn:Hlevel.
              ** bind_inv H g2 r3 Hadvance.
                 unfold ret in H. injection H as <- <- <-.
                 apply advance_level_cases in Hadvance.
                 destruct Hadvance as (Hboard & Hsnake & Hov & Hadv).
                 split; [exact Hboard|].
                 destruct Hadv as [(Hmax & -> & _) | (Hmax & Hl & Hf & Hs & Hw)].
                 --- apply Tick.won; try assumption; cbn in *; try reflexivity; lia.
                 --- apply Tick.advanced; try assumption; cbn in *; try lia; congruence.
              ** unfold ret in H. injection H as <- <- <-.
                 split; [repeat split|].
                 apply Tick.ate; try assumption; cbn; try reflexivity; lia.
           ++ unfold ret in H. injection H as <- <- <-.
              split; [repeat split|].
              apply Tick.moved; try assumption; repeat split.
Qed.

Lemma run_ticks_terminal fuel g r n k :
  Tick.terminal g = true ->
  Play.run fuel (repeat Play.Tick n) g k r = Ok ((g, k), r).
Proof.
  intros Ht. induction n as [|n IH]; [reflexivity|].
  cbn [repeat Play.run]. unfold bind at 1, update.
  unfold Tick.terminal in Ht. rewrite Ht. cbn. exact IH.
Qed.

(** C1 (amended) — a returning call of [update] yields [False] exactly
    when the state was already terminal or the call sets [game_over];
    the call on which the game is won sets [game_won] and yields [True];
    on a terminal state [update] yields [False], whatever the fuel, and
    changes neither the state nor the generator, and so does any number
    of calls in a row. *)
Theorem update_false_iff_over_or_stopped fuel g r :
  (Tick.terminal g = true ->
   update fuel g r = Ok ((false, g), r)
   /\ forall n k, Play.run fuel (repeat Play.Tick n) g k r = Ok ((g, k), r))
  /\ (forall ok g' r',
        update fuel g r = Ok ((ok, g'), r') ->
        (ok = false <-> is_game_over g' = true \/ Tick.terminal g = true)
        /\ (is_game_won g = false -> is_game_won g' = true -> ok = true)).
Proof.
  split.
  - intros Ht. split.
    + unfold Tick.terminal in Ht. unfold update. rewrite Ht. reflexivity.
    + intros n k. now apply run_ticks_terminal.
  - intros ok g' r' H. apply update_cases in H. destruct H as [_ H].
    unfold is_game_over, is_game_won.
    destruct H; (split; [split|]); intros; auto; try congruence;
      match goal with
      | Hd : _ \/ _ |- _ => destruct Hd; congruence
      end.
Qed.

(** C10 — a call of [update] that eats the food (the food is one cell
    ahead of the head and the call yields [True]) and reaches the
    threshold with it ([foods_eaten + 1 >= foods_per_level]) while the
    level is already [max_level]: [game_won] is set and [game_over] is
    not, the level stays, [foods_eaten] is the old count plus one and is
    not reset (it is [foods_per_level] when the old count was below the
    threshold), and the score grows by the 10 points of the food only. *)
Theorem win_at_max_level fuel g r g' r' :
  update fuel g r = Ok ((true, g'), r') ->
  max_level g <= level g ->
  Play.food_ahead g = true ->
  foods_per_level g <= foods_eaten g + 1 ->
  is_game_won g' = true
  /\ is_game_over g' = false
  /\ level g' = level g
  /\ foods_eaten g' = foods_eaten g + 1
  /\ (foods_eaten g < foods_per_level g ->
      foods_eaten g' = foods_per_level g')
  /\ score g' = score g + 10.
Proof.
  intros H Hmax Hfood Hreach. apply update_cases in H.
  destruct H as [(_ & _ & Hfpl & _) H]. unfold is_game_won, is_game_over.
  inversion H; subst; try congruence; try lia.
  repeat split; try assumption; lia.
Qed.

(** C2 (amended) — [change_snake_direction] consults no flag: in every
    state the direction becomes [d] unless [d] is the opposite of the
    current direction, and nothing else changes. *)
Theorem change_snake_direction_any_state g d :
  change_snake_direction g d
  = set_snake g
      {| Snake.body := Snake.body (snake g);
         Snake.direction :=
           if opposite_of (Snake.direction (snake g)) d
           then Snake.direction (snake g) else d;
         Snake.grow_pending := Snake.grow_pending (snake g) |}.
Proof.
  unfold change_snake_direction, Snake.change_direction.
  destruct (snake g) as [body dir pending]; simpl.
  destruct dir, d; reflexivity.
Qed.
End GameStateFacts.

(** ** The progress text *)

Lemma cut_at_unique (c : ascii) (s1 s2 r1 r2 : string) :
  occurs c s1 = false -> occurs c s2 = false ->
  (s1 ++ String c r1)%string = (s2 ++ String c r2)%string ->
  s1 = s2 /\ r1 = r2.
Proof.
  revert s2. induction s1 as [|a s1 IH]; intros [|b s2]; simpl; intros H1 H2 H.
  - injection H as ->. auto.
  - injection H as <- _. rewrite Ascii.eqb_refl in H2. discriminate.
  - injection H as -> _. rewrite Ascii.eqb_refl in H1. discriminate.
  - injection H as -> H. apply orb_false_elim in H1, H2.
    destruct (IH s2 (proj2 H1) (proj2 H2) H) as [-> ->]. auto.
Qed.

Lemma uint_digits_only (c : ascii) (d : Decimal.uint) :
  (c = " " \/ c = "/")%char -> occurs c (NilEmpty.string_of_uint d) = false.
Proof.
  intros Hc. induction d; simpl; try rewrite IHd; destruct Hc; subst; reflexivity.
Qed.

Lemma str_digits_only (c : ascii) (n : Z) :
  (c = " " \/ c = "/")%char -> occurs c (GameState.str n) = false.
Proof.
  intros Hc. unfold GameState.str.
  assert (Hu : forall d, occurs c (NilZero.string_of_uint d) = false).
  { intros d. destruct d; try apply (uint_digits_only c _ Hc).
    destruct Hc; subst; reflexivity. }
  destruct (Z.to_int n) as [d|d]; simpl; [apply Hu|].
  rewrite Hu. destruct Hc; subst; reflexivity.
Qed.

Lemma str_inj (a b : Z) : GameState.str a = GameState.str b -> a = b.
Proof.
  unfold GameState.str. intros H. apply DecimalZ.to_int_inj.
  assert (Hn : forall n, Z.to_int n <> Decimal.Pos Decimal.Nil
                         /\ Z.to_int n <> Decimal.Neg Decimal.Nil).
  { intros [|p|p]; simpl; split; try discriminate;
      intros [= Hp]; now apply Unsigned.to_uint_nonnil in Hp. }
  pose proof (NilZero.isi _ (proj1 (Hn a)) (proj2 (Hn a))) as Ha.
  pose proof (NilZero.isi _ (proj1 (Hn b)) (proj2 (Hn b))) as Hb.
  rewrite H in Ha. congruence.
Qed.

(** C9 (amended) — [get_progress] returns the text
    [Level <level> - Food: <foods_eaten>/<foods_per_level>] with the
    three numbers in decimal, and the text determines the three numbers. *)
Theorem get_progress_renders_counters (g : GameState.t) :
  GameState.get_progress g
  = PyStr ("Level " ++ GameState.str (GameState.level g)
             ++ " - Food: " ++ GameState.str (GameState.foods_eaten g)
             ++ "/" ++ GameState.str (GameState.foods_per_level g))%string
  /\ forall g2,
       GameState.get_progress g2 = GameState.get_progress g ->
       GameState.level g2 = GameState.level g
       /\ GameState.foods_eaten g2 = GameState.foods_eaten g
       /\ GameState.foods_per_level g2 = GameState.foods_per_level g.
Proof.
  split; [reflexivity|]. intros g2. unfold GameState.get_progress. intros [= H].
  apply (cut_at_unique " "%char) in H; try (apply str_digits_only; now left).
  destruct H as [Hl H]. injection H as H.
  apply (cut_at_unique "/"%char) in H; try (apply str_digits_only; now right).
  destruct H as [He Hf].
  apply str_inj in Hl, He, Hf. auto.
Qed.

(** ** Food placement *)

Section FoodFacts.
Context {R : PyRandom}.
Import Food.

Lemma randint_Ok a b r v r' :
  randint a b r = Ok (v, r') -> a <= v <= b.
Proof.
  unfold randint. destruct (b <? a) eqn:Hab; [discriminate|].
  intros [= Hv]. apply Z.ltb_ge in Hab.
  pose proof (rng_draw_range a b r Hab) as Hr.
  rewrite Hv in Hr. exact Hr.
Qed.

Lemma randint_total a b r :
  a <= b -> exists v r', randint a b r = Ok (v, r') /\ a <= v <= b.
Proof.
  intros Hab. unfold randint.
  destruct (b <? a) eqn:Hlt; [apply Z.ltb_lt in Hlt; lia|].
  destruct (rng_draw a b r) as [v r'] eqn:Hd.
  exists v, r'. split; [reflexivity|].
  pose proof (rng_draw_range a b r Hab) as Hr. rewrite Hd in Hr. exact Hr.
Qed.

(** C7 — whenever [Food.regenerate] returns, the new position is in
    neither the snake body it was given nor the food's obstacle list, and
    lies in the interior: [1 <= x <= width - 2], [1 <= y <= height - 2]. *)
Theorem regenerate_position fuel self snake_body r self' r' :
  regenerate fuel self snake_body r = Ok (self', r') ->
  ~ In (position self') snake_body
  /\ ~ In (position self') (obstacles self')
  /\ 1 <= fst (position self') <= width self' - 2
  /\ 1 <= snd (position self') <= height self' - 2.
Proof.
  revert r. induction fuel as [|fuel IH]; intros r H; [discriminate H|].
  cbn [regenerate] in H. unfold bind at 1 in H.
  destruct (randint 1 (width self - 2) r) as [[x r1]| |] eqn:Hx; try discriminate H.
  unfold bind at 1 in H.
  destruct (randint 1 (height self - 2) r1) as [[y r2]| |] eqn:Hy; try discriminate H.
  destruct (negb (mem (x, y) snake_body) && negb (mem (x, y) (obstacles self))) eqn:Hfree.
  - unfold ret in H. injection H as <- _. cbn [position obstacles width height fst snd].
    apply andb_true_iff in Hfree. destruct Hfree as [Hb Ho].
    apply negb_true_iff in Hb, Ho. apply mem_false in Hb, Ho.
    apply randint_Ok in Hx, Hy. auto.
  - eapply IH. exact H.
Qed.

(** With every interior cell taken the loop of [regenerate] never exits. *)
Lemma regenerate_exhausted fuel self snake_body r :
  1 <= width self - 2 -> 1 <= height self - 2 ->
  (forall x y, 1 <= x <= width self - 2 -> 1 <= y <= height self - 2 ->
               In (x, y) snake_body \/ In (x, y) (obstacles self)) ->
  regenerate fuel self snake_body r = Diverge.
Proof.
  intros Hw Hh Hfull. revert r.
  induction fuel as [|fuel IH]; intros r; [reflexivity|].
  cbn [regenerate]. unfold bind at 1.
  destruct (randint_total 1 (width self - 2) r Hw) as (x & r1 & -> & Hx).
  unfold bind at 1.
  destruct (randint_total 1 (height self - 2) r1 Hh) as (y & r2 & -> & Hy).
  destruct (Hfull x y Hx Hy) as [Hin|Hin]; apply mem_In in Hin; rewrite Hin.
  - simpl. apply IH.
  - rewrite andb_false_r. apply IH.
Qed.
End FoodFacts.

(** C4 — on a 5 x 5 board without obstacles whose nine interior cells
    are all covered by the snake, [Food.regenerate] does not return and
    does not raise: whatever the generator and however many rounds it is
    given, the loop is still running. *)
Theorem regenerate_full_board_never_returns
    (R : PyRandom) (fuel : nat) (r : rng) :
  Food.regenerate fuel
    {| Food.width := 5; Food.height := 5;
       Food.obstacles := []; Food.position := (2, 2) |}
    [(1, 1); (2, 1); (3, 1); (3, 2); (2, 2); (1, 2); (1, 3); (2, 3); (3, 3)] r
  = Diverge.
Proof.
  apply regenerate_exhausted; cbn [Food.width Food.height Food.obstacles]; try lia.
  intros x y Hx Hy. left.
  assert (Hc : (x = 1 \/ x = 2 \/ x = 3) /\ (y = 1 \/ y = 2 \/ y = 3)) by lia.
  destruct Hc as [[-> | [-> | ->]] [-> | [-> | ->]]]; simpl; tauto.
Qed.

Section LevelFacts.
Context {R : PyRandom} {T : PyTrig}.
Import LevelManager.

(** C5 — at level 7 and at every level from 10 on, the outcome of
    [get_level_obstacles] (the obstacle list, or the exception) is the
    same whatever state the shared generator was left in by earlier
    calls; so is the state the generator is left in. *)
Theorem seeded_levels_ignore_history (level width height : Z) (r1 r2 : rng) :
  level = 7 \/ 10 <= level ->
  get_level_obstacles level width height r1
  = get_level_obstacles level width height r2.
Proof.
  intros Hl. unfold get_level_obstacles.
  destruct Hl as [-> | Hl].
  - reflexivity.
  - repeat match goal with
           | |- context [level =? ?k] =>
               destruct (Z.eqb_spec level k) as [?|_]; [lia|]
           end.
    destruct (level >=? 10) eqn:Hge; [reflexivity|lia].
Qed.
End LevelFacts.

(** ** Five foods at level 1 *)

(** Membership after a loop that appends [f x] for the [x] that pass a
    guard, possibly skipping values already present. *)
Lemma In_for_each_append {A : Type} (f : A -> coord) (guard : A -> bool)
    (keep : list coord -> A -> bool) (xs : list A) (init : list coord) (p : coord) :
  (forall acc x, keep acc x = true -> guard x = true) ->
  (forall acc x, guard x = true -> keep acc x = false -> In (f x) acc) ->
  In p (for_each xs (fun acc x => if keep acc x then acc ++ [f x] else acc) init)
  <-> In p init \/ exists x, In x xs /\ guard x = true /\ p = f x.
Proof.
  intros Hkeep Hskip. unfold for_each. revert init.
  induction xs as [|x xs IH]; intros init; simpl.
  - split; [auto | intros [H | (x & [] & _)]; exact H].
  - rewrite IH. split.
    + intros [H | (y & Hy & Hg & ->)].
      * destruct (keep init x) eqn:Hk; [|now left].
        apply in_app_or in H. destruct H as [H | [<- | []]]; [now left|].
        right. exists x. split; [now left|]. split; [eauto | reflexivity].
      * right. exists y. auto.
    + intros [H | (y & [<- | Hy] & Hg & ->)].
      * left. destruct (keep init x); [apply in_or_app|]; auto.
      * left. destruct (keep init x) eqn:Hk.
        -- apply in_or_app. right. now left.
        -- eauto.
      * right. exists y. auto.
Qed.

Lemma level2_is_centered_cross (width height : Z) (p : coord) :
  In p (LevelManager.level2 width height) <-> centered_cross width height p.
Proof.
  unfold LevelManager.level2, centered_cross.
  rewrite (In_for_each_append (fun x => (x, height / 2))
             (fun x => (0 <? x) && (x <? width - 1))).
  - rewrite (In_for_each_append (fun y => (width / 2, y))
               (fun y => (0 <? y) && (y <? height - 1))
               (fun _ y => (0 <? y) && (y <? height - 1))).
    + destruct p as [px py]. simpl fst; simpl snd. split.
      * intros [[[] | (y & Hy & Hg & [= -> ->])] | (x & Hx & Hg & [= -> ->])];
          [left | right]; apply In_py_range in Hy || apply In_py_range in Hx;
          apply andb_true_iff in Hg; destruct Hg as [H0 H1];
          apply Z.ltb_lt in H0, H1; lia.
      * intros [(-> & Ha & Hb) | (-> & Ha & Hb)].
        -- left. right. exists py. split; [apply In_py_range; lia|].
           split; [|reflexivity]. apply andb_true_iff; split; apply Z.ltb_lt; lia.
        -- right. exists px. split; [apply In_py_range; lia|].
           split; [|reflexivity]. apply andb_true_iff; split; apply Z.ltb_lt; lia.
    + auto.
    + intros acc y Hg Hk. congruence.
  - intros acc x Hk. apply andb_true_iff in Hk. tauto.
  - intros acc x Hg Hk. rewrite Hg in Hk. simpl in Hk.
    apply negb_false_iff in Hk. now apply mem_In.
Qed.

Section RunFacts.
Context {R : PyRandom} {T : PyTrig}.
Import GameState.

Lemma init_state fuel w h r g0 r' :
  __init__ fuel w h r = Ok (g0, r') ->
  width g0 = w /\ height g0 = h /\ progress 0 g0
  /\ game_over g0 = false /\ game_won g0 = false.
Proof.
  unfold __init__. intros H.
  unfold bind at 1 in H.
  destruct (LevelManager.get_level_obstacles 1 w h r) as [[o r1]| |]; try discriminate H.
  unfold bind at 1 in H.
  destruct (Food.__init__ fuel w h o r1) as [[f r2]| |]; try discriminate H.
  unfold bind at 1 in H.
  destruct (Food.regenerate fuel f _ r2) as [[f' r3]| |]; try discriminate H.
  unfold ret in H. injection H as <- _.
  unfold progress; cbn. repeat split; intros; lia.
Qed.

Lemma update_progress fuel g r ok g' r' n :
  update fuel g r = Ok ((ok, g'), r') ->
  progress n g ->
  progress (if ok && Play.food_ahead g then S n else n) g'.
Proof.
  intros H (Hfpl & Hmax & Hlow & Hfive). apply update_cases in H.
  destruct H as [(_ & _ & Hfpl' & Hmax') H]. unfold progress.
  rewrite Hfpl', Hmax'.
  destruct H as [ | ? ? (? & ? & ?) | ? ? Ha (? & ? & ?) | ? ? Ha | ? ? Ha | ? ? Ha ];
    try rewrite Ha; simpl andb; cbv iota;
    (split; [assumption|]); (split; [assumption|]); split; intros Hn;
    try (specialize (Hlow ltac:(lia))); try (specialize (Hfive ltac:(lia))); lia.
Qed.

Lemma run_progress fuel acts g n r g' n' r' :
  Play.run fuel acts g n r = Ok ((g', n'), r') ->
  progress n g ->
  progress n' g' /\ width g' = width g /\ height g' = height g.
Proof.
  revert g n r. induction acts as [|[|d] acts IH]; intros g n r H Hp.
  - cbn in H. injection H as <- <- _. auto.
  - cbn [Play.run] in H. unfold bind at 1 in H.
    destruct (update fuel g r) as [[[ok g1] r1]| |] eqn:Hu; try discriminate H.
    pose proof (update_progress _ _ _ _ _ _ _ Hu Hp) as Hp1.
    apply update_cases in Hu. destruct Hu as [(Hw & Hh & _) _].
    destruct (IH _ _ _ H Hp1) as (Hq & Hw' & Hh').
    split; [assumption|]. split; congruence.
  - cbn [Play.run] in H.
    apply (IH _ _ _ H Hp).
Qed.

(** C8 — a game that has had five food-eating ticks since its
    construction is at level 2 with [foods_eaten = 0] and [score = 100],
    and [get_obstacles] returns the level-2 list, whose cells are exactly
    those of the centered cross. *)
Theorem five_foods_reach_level_two fuel w h acts r0 g r :
  Play.play fuel w h acts r0 = Ok ((g, 5%nat), r) ->
  level g = 2 /\ foods_eaten g = 0 /\ score g = 100
  /\ get_obstacles g r = Ok (LevelManager.level2 w h, r)
  /\ forall p, In p (LevelManager.level2 w h) <-> centered_cross w h p.
Proof.
  unfold Play.play. intros H. unfold bind at 1 in H.
  destruct (__init__ fuel w h r0) as [[g0 r1]| |] eqn:Hinit; try discriminate H.
  apply init_state in Hinit. destruct Hinit as (Hw & Hh & Hp & _).
  destruct (run_progress _ _ _ _ _ _ _ _ H Hp) as ((_ & _ & _ & Hfive) & Hw' & Hh').
  destruct (Hfive eq_refl) as (Hl & Hf & Hs).
  repeat split; try assumption.
  - unfold get_obstacles. rewrite Hl, Hw', Hh', Hw, Hh. reflexivity.
  - apply level2_is_centered_cross.
  - apply level2_is_centered_cross.
Qed.
End RunFacts.

(** ** Obstacles and the border ring *)

Lemma inside_nil w h : inside w h [].
Proof. intros p []. Qed.

Lemma inside_snoc w h l x y :
  inside w h l -> 0 < x < w - 1 -> 0 < y < h - 1 -> inside w h (l ++ [(x, y)]).
Proof.
  intros Hl Hx Hy p Hp. apply in_app_or in Hp.
  destruct Hp as [Hp | [<- | []]]; [now apply Hl | simpl; auto].
Qed.

Section ObstacleFacts.
Context {R : PyRandom} {T : PyTrig}.
Import LevelManager.

Lemma repeat_M_invariant {S : Type} (P : S -> Prop) (n : nat)
    (body : S -> M S) (s : S) (r : rng) (s' : S) (r' : rng) :
  P s ->
  (forall acc g acc' g', P acc -> body acc g = Ok (acc', g') -> P acc') ->
  repeat_M n body s r = Ok (s', r') -> P s'.
Proof.
  intros Hs Hstep. revert s r Hs.
  induction n as [|n IH]; intros s r Hs H; cbn [repeat_M] in H.
  - unfold ret in H. injection H as <- _. exact Hs.
  - unfold bind in H. destruct (body s r) as [[s1 r1]| |] eqn:Hb; try discriminate H.
    eapply IH; [|exact H]. eapply Hstep; eassumption.
Qed.

Ltac loop := apply for_each_invariant; [ | intros ? ? ?%In_py_range ?].
Ltac guards :=
  repeat match goal with
         | H : (_ && _) = true |- _ => apply andb_true_iff in H; destruct H
         | H : (_ <? _) = true |- _ => apply Z.ltb_lt in H
         | H : (_ =? _) = true |- _ => apply Z.eqb_eq in H
         end.
Ltac arith := Z.to_euclidean_division_equations; lia.

Lemma level2_inside w h : 5 <= w -> 5 <= h -> inside w h (level2 w h).
Proof.
  intros Hw Hh. unfold level2. loop; [loop; [apply inside_nil|] |].
  - destruct (_ && _) eqn:Hg; [|assumption]. guards.
    apply inside_snoc; [assumption | arith | lia].
  - destruct (_ && _) eqn:Hg; [|assumption]. guards.
    apply inside_snoc; [assumption | lia | arith].
Qed.

Lemma level3_inside w h : 9 <= w -> 7 <= h -> inside w h (level3 w h).
Proof.
  intros Hw Hh. unfold level3.
  loop; [loop; [apply inside_nil|] |]; loop; try assumption;
    apply inside_snoc; (assumption || lia).
Qed.

Lemma level4_inside w h :
  5 <= w -> 5 <= h -> 7 <= w \/ h <= 8 -> inside w h (level4 w h).
Proof.
  intros Hw Hh Hc. unfold level4. loop; [apply inside_nil|].
  destruct (_ =? _); [|assumption].
  loop; [loop; [assumption|] |]; apply inside_snoc; (assumption || lia).
Qed.

Lemma level5_inside w h : inside w h (level5 w h).
Proof.
  unfold level5. loop; [apply inside_nil|].
  apply for_each_invariant; [assumption|]. intros acc' angle _ Hacc.
  destruct (_ && _) eqn:Hg; [|assumption]. guards.
  apply inside_snoc; (assumption || lia).
Qed.

Lemma level6_inside w h : 5 <= w -> 5 <= h -> inside w h (level6 w h).
Proof.
  intros Hw Hh. unfold level6.
  loop; [loop; [apply inside_nil|] |];
    repeat apply inside_snoc; (assumption || lia).
Qed.

Lemma level8_inside w h : inside w h (level8 w h).
Proof.
  unfold level8. loop; [apply inside_nil|]. loop; [assumption|].
  destruct (_ =? _); [|assumption].
  destruct (_ && _) eqn:Hg; [|assumption]. guards.
  apply inside_snoc; (assumption || lia).
Qed.

Lemma level9_inside w h : inside w h (level9 w h).
Proof.
  unfold level9.
  apply for_each_invariant;
    [apply for_each_invariant; [apply inside_nil|] |];
    intros acc a Ha%In_py_range_step Hacc; try lia;
    loop; try assumption;
    (destruct (negb _); [|assumption]);
    apply inside_snoc; (assumption || lia).
Qed.

Lemma level7_inside w h r obstacles r' :
  level7 w h r = Ok (obstacles, r') -> inside w h obstacles.
Proof.
  unfold level7. unfold bind at 1, seed. 
  apply repeat_M_invariant; [apply inside_nil|].
  intros acc g acc' g' Hacc H.
  unfold bind at 1 in H.
  destruct (randint 4 (w - 5) g) as [[x g1]| |] eqn:Hx; try discriminate H.
  unfold bind at 1 in H.
  destruct (randint 4 (h - 5) g1) as [[y g2]| |] eqn:Hy; try discriminate H.
  unfold ret in H. injection H as <- _.
  apply randint_Ok in Hx, Hy. apply inside_snoc; (assumption || lia).
Qed.

Lemma level10_inside level w h r obstacles r' :
  5 <= w -> 5 <= h ->
  level10 level w h r = Ok (obstacles, r') -> inside w h obstacles.
Proof.
  intros Hw Hh. unfold level10. unfold bind at 1, seed.
  apply repeat_M_invariant.
  - loop; [apply inside_nil|].
    cbv zeta.
    repeat match goal with
           | |- context [if ?c then _ else _] => destruct c eqn:?
           end; guards;
      repeat apply inside_snoc; try assumption; try lia; arith.
  - intros acc g acc' g' Hacc H.
    unfold bind at 1 in H.
    destruct (randint 3 (w - 4) g) as [[x g1]| |] eqn:Hx; try discriminate H.
    unfold bind at 1 in H.
    destruct (randint 3 (h - 4) g1) as [[y g2]| |] eqn:Hy; try discriminate H.
    apply randint_Ok in Hx, Hy.
    destruct (negb _); unfold ret in H; injection H as <- _;
      [apply inside_snoc|]; (assumption || lia).
Qed.

(** X10 — away from the small boards of levels 3 and 4 (level 3 needs
    9 x 7, level 4 a width of 7 or a height below 9), every obstacle
    that [get_level_obstacles] returns lies strictly inside the border
    ring. *)
Theorem obstacles_inside_board level w h r obstacles r' :
  5 <= w -> 5 <= h ->
  (level = 3 -> 9 <= w /\ 7 <= h) ->
  (level = 4 -> 7 <= w \/ h <= 8) ->
  get_level_obstacles level w h r = Ok (obstacles, r') ->
  inside w h obstacles.
Proof.
  intros Hw Hh H3 H4. unfold get_level_obstacles, ret.
  destruct (Z.eqb_spec level 1); [intros [= <- _]; apply inside_nil|].
  destruct (Z.eqb_spec level 2); [intros [= <- _]; now apply level2_inside|].
  destruct (Z.eqb_spec level 3); [intros [= <- _]; apply level3_inside; tauto|].
  destruct (Z.eqb_spec level 4); [intros [= <- _]; apply level4_inside; tauto|].
  destruct (Z.eqb_spec level 5); [intros [= <- _]; apply level5_inside|].
  destruct (Z.eqb_spec level 6); [intros [= <- _]; now apply level6_inside|].
  destruct (Z.eqb_spec level 7); [apply level7_inside|].
  destruct (Z.eqb_spec level 8); [intros [= <- _]; apply level8_inside|].
  destruct (Z.eqb_spec level 9); [intros [= <- _]; apply level9_inside|].
  destruct (level >=? 10); [now apply level10_inside|].
  intros [= <- _]. apply inside_nil.
Qed.
End ObstacleFacts.

(** C3 — levels 3 and 4 place their blocks at fixed offsets without
    looking at the board: on an 8 x 20 board level 3 puts obstacles on
    both side walls, on a 5 x 5 board it puts them outside the board, and
    on a 5 x 9 board level 4 puts them on and beyond the left wall. *)
Theorem fixed_offsets_leave_the_interior
    (R : PyRandom) (T : PyTrig) (r : rng) :
  LevelManager.get_level_obstacles 3 8 20 r = Ok (LevelManager.level3 8 20, r)
  /\ In (7, 3) (LevelManager.level3 8 20)
  /\ In (0, 14) (LevelManager.level3 8 20)
  /\ LevelManager.get_level_obstacles 3 5 5 r = Ok (LevelManager.level3 5 5, r)
  /\ In (7, 5) (LevelManager.level3 5 5)
  /\ In (-3, -1) (LevelManager.level3 5 5)
  /\ LevelManager.get_level_obstacles 4 5 9 r = Ok (LevelManager.level4 5 9, r)
  /\ In (0, 4) (LevelManager.level4 5 9)
  /\ In (-1, 4) (LevelManager.level4 5 9).
Proof.
  repeat split; try reflexivity; apply mem_In; vm_compute; reflexivity.
Qed.

(** * Sample runs *)

Section Samples.
Import GameState Scripted.

Lemma move_head_and_tail_sample :
  Snake.body (Snake.__init__ 15 10) = [(15, 10)]
  /\ exists s',
       Snake.move (Snake.__init__ 15 10) = Ok ((16, 10), s')
       /\ hd_error (Snake.body s') = Some (16, 10)
       /\ Snake.direction s' = RIGHT
       /\ Snake.grow_pending s' = false
       /\ (false = false ->
           Snake.body s' = [(16, 10)] /\ List.length (Snake.body s') = 1%nat)
       /\ (false = true ->
           Snake.body s' = [(16, 10); (15, 10)]
           /\ List.length (Snake.body s') = 2%nat).
Proof.
  split; [reflexivity|].
  exact (move_head_and_tail (Snake.__init__ 15 10) (15, 10) [] eq_refl).
Defined.

(** C1, as stated, fails: the sample game is one tick from its end;
    that tick sets [game_won], and [update] returns [True]. *)
Lemma winning_update_returns_true :
  Play.reachable Scripted.before_win [2; 2] 49
  /\ is_game_won Scripted.before_win = false
  /\ update 6 Scripted.before_win [2; 2]
     = Ok ((true, Scripted.after_win), [])
  /\ is_game_won Scripted.after_win = true.
Proof.
  split; [|repeat split; vm_compute; reflexivity].
  exists 6%nat, 30, 20, (firstn 52 Scripted.game), Scripted.tape_start.
  vm_compute. reflexivity.
Qed.

Lemma update_false_iff_sample :
  (Tick.terminal Scripted.after_win = true
   /\ update 6 Scripted.after_win [] = Ok ((false, Scripted.after_win), [])
   /\ forall n k,
        Play.run 6 (repeat Play.Tick n) Scripted.after_win k []
        = Ok ((Scripted.after_win, k), []))
  /\ update 6 Scripted.before_win [2; 2] = Ok ((true, Scripted.after_win), [])
  /\ (true = false <->
      is_game_over Scripted.after_win = true
      \/ Tick.terminal Scripted.before_win = true)
  /\ (is_game_won Scripted.before_win = false ->
      is_game_won Scripted.after_win = true -> true = true).
Proof.
  assert (Ht : Tick.terminal Scripted.after_win = true) by reflexivity.
  assert (Hu : update 6 Scripted.before_win [2; 2]
               = Ok ((true, Scripted.after_win), []))
    by (vm_compute; reflexivity).
  split.
  - split; [exact Ht|].
    exact (proj1 (update_false_iff_over_or_stopped (R := random) 6
                    Scripted.after_win []) Ht).
  - split; [exact Hu|].
    exact (proj2 (update_false_iff_over_or_stopped (R := random) 6
                    Scripted.before_win [2; 2])
             true Scripted.after_win [] Hu).
Defined.

Lemma win_at_max_level_sample :
  update 6 Scripted.before_win [2; 2] = Ok ((true, Scripted.after_win), [])
  /\ max_level Scripted.before_win <= level Scripted.before_win
  /\ Play.food_ahead Scripted.before_win = true
  /\ foods_per_level Scripted.before_win
     <= foods_eaten Scripted.before_win + 1
  /\ (is_game_won Scripted.after_win = true
      /\ is_game_over Scripted.after_win = false
      /\ level Scripted.after_win = level Scripted.before_win
      /\ foods_eaten Scripted.after_win
         = foods_eaten Scripted.before_win + 1
      /\ (foods_eaten Scripted.before_win
           < foods_per_level Scripted.before_win ->
          foods_eaten Scripted.after_win
          = foods_per_level Scripted.after_win)
      /\ score Scripted.after_win = score Scripted.before_win + 10).
Proof.
  assert (Hu : update 6 Scripted.before_win [2; 2]
               = Ok ((true, Scripted.after_win), []))
    by (vm_compute; reflexivity).
  assert (Hm : max_level Scripted.before_win <= level Scripted.before_win)
    by (vm_compute; discriminate).
  assert (Ha : Play.food_ahead Scripted.before_win = true)
    by (vm_compute; reflexivity).
  assert (Hf : foods_per_level Scripted.before_win
               <= foods_eaten Scripted.before_win + 1)
    by (vm_compute; discriminate).
  split; [exact Hu|]. split; [exact Hm|]. split; [exact Ha|].
  split; [exact Hf|].
  exact (win_at_max_level (R := random) 6 _ _ _ _ Hu Hm Ha Hf).
Defined.

(** C2, as stated, fails: after the crash into the right wall the game
    is over, and a turn upwards still changes the snake's direction. *)
Lemma direction_changes_after_game_over :
  Play.reachable Scripted.crashed [] 0
  /\ is_game_over Scripted.crashed = true
  /\ Snake.direction (snake Scripted.crashed) = RIGHT
  /\ Snake.direction (snake (change_snake_direction Scripted.crashed UP)) = UP.
Proof.
  split; [|repeat split].
  exists 1%nat, 30, 20, (repeat Play.Tick 14), [].
  vm_compute. reflexivity.
Qed.

(** C9, as stated, fails: the value returned is a text, not a triple. *)
Lemma get_progress_is_text_not_triple :
  get_progress Scripted.crashed = PyStr "Level 1 - Food: 0/5"
  /\ get_progress Scripted.crashed
     <> PyTuple [PyInt (level Scripted.crashed);
                 PyInt (foods_eaten Scripted.crashed);
                 PyInt (foods_per_level Scripted.crashed)].
Proof.
  split; [reflexivity | discriminate].
Qed.

Lemma regenerate_position_sample :
  Food.regenerate 1
    {| Food.width := 30; Food.height := 20;
       Food.obstacles := []; Food.position := (1, 1) |}
    [(15, 10)] [16; 10]
  = Ok ({| Food.width := 30; Food.height := 20;
           Food.obstacles := []; Food.position := (16, 10) |}, [])
  /\ (~ In (16, 10) [(15, 10)]
      /\ ~ In (16, 10) []
      /\ 1 <= 16 <= 30 - 2
      /\ 1 <= 10 <= 20 - 2).
Proof.
  assert (Hr : Food.regenerate 1
                 {| Food.width := 30; Food.height := 20;
                    Food.obstacles := []; Food.position := (1, 1) |}
                 [(15, 10)] [16; 10]
               = Ok ({| Food.width := 30; Food.height := 20;
                        Food.obstacles := []; Food.position := (16, 10) |}, []))
    by reflexivity.
  split; [exact Hr|].
  exact (regenerate_position (R := random) 1 _ _ _ _ _ Hr).
Defined.

Lemma seeded_levels_sample :
  (7 = 7 \/ 10 <= 7)
  /\ LevelManager.get_level_obstacles 7 30 20 [5; 5]
     = LevelManager.get_level_obstacles 7 30 20 Scripted.tape_start.
Proof.
  split; [left; reflexivity|].
  apply (seeded_levels_ignore_history (R := random)). left. reflexivity.
Defined.

Lemma five_foods_sample :
  exists g r,
    Play.play 2 30 20 (firstn 5 Scripted.game) Scripted.tape_start
    = Ok ((g, 5%nat), r)
    /\ level g = 2 /\ foods_eaten g = 0 /\ score g = 100
    /\ get_obstacles g r = Ok (LevelManager.level2 30 20, r)
    /\ forall p, In p (LevelManager.level2 30 20) <-> centered_cross 30 20 p.
Proof.
  destruct (Play.play (R := random) (T := trig) 2 30 20
              (firstn 5 Scripted.game) Scripted.tape_start)
    as [[[g n] r]| |] eqn:Hplay; try (vm_compute in Hplay; discriminate Hplay).
  assert (Hn : n = 5%nat) by (vm_compute in Hplay; congruence).
  subst n. exists g, r. split; [reflexivity|].
  exact (five_foods_reach_level_two (R := random) _ _ _ _ _ _ _ Hplay).
Defined.
End Samples.

(** * Further properties *)

(** ** The paths of [update] *)

Section StepFacts.
Context {R : PyRandom} {T : PyTrig}.
Import GameState.

Ltac bind_inv H a r E :=
  unfold bind at 1 in H;
  match type of H with
  | match ?x with _ => _ end = _ =>
      destruct x as [[a r]| |] eqn:E; try discriminate H
  end.

Ltac fields_in H :=
  cbn [width height score level foods_eaten foods_per_level game_over
       game_won max_level snake food set_snake set_food set_game_over
       set_game_won set_score set_level set_foods_eaten Snake.get_body
       Snake.grow Snake.body Food.get_position] in H.

Lemma update_path fuel g r ok g' r' :
  update fuel g r = Ok ((ok, g'), r') -> Step.path fuel g r ok g' r'.
Proof.
  unfold update. intros H.
  destruct (game_over g || game_won g) eqn:Hterm.
  - unfold ret in H. injection H as <- <- <-. now apply Step.stopped.
  - unfold bind at 1 in H. unfold lift at 1 in H.
    destruct (Snake.move (snake g)) as [[new_head s1]| |] eqn:Hmove;
      try discriminate H.
    pose proof (move_food_ahead _ _ _ Hmove) as Hahead.
    cbn beta iota in H. fields_in H.
    change ((fst new_head <=? 0) || (fst new_head >=? width g - 1)
            || (snd new_head <=? 0) || (snd new_head >=? height g - 1))
      with (Step.on_border (width g) (height g) new_head) in H.
    destruct (Step.on_border (width g) (height g) new_head) eqn:Hwall.
    + unfold ret in H. injection H as <- <- <-.
      eapply Step.hit_wall; eassumption.
    + bind_inv H obstacles r1 Hobs.
      destruct (mem new_head obstacles) eqn:Hmem.
      * unfold ret in H. injection H as <- <- <-.
        eapply Step.hit_obstacle; eassumption.
      * unfold bind at 1 in H. unfold lift at 1 in H.
        destruct (Snake.check_self_collision s1) as [collided| |] eqn:Hself;
          try discriminate H.
        cbn beta iota in H. destruct collided.
        -- unfold ret in H. injection H as <- <- <-.
           eapply Step.hit_self; eassumption.
        -- fields_in H. rewrite Hahead in H.
           destruct (Play.food_ahead g) eqn:Hfood.
           ++ bind_inv H food1 r2 Hregen. fields_in H.
              destruct (foods_eaten g + 1 >=? foods_per_level g) eqn:Hlevel.
              ** bind_inv H g2 r3 Hadvance.
                 unfold ret in H. injection H as <- <- <-.
                 eapply Step.completed; try eassumption; lia.
              ** unfold ret in H. injection H as <- <- <-.
                 change (Step.path fuel g r true (Step.fed g s1 food1) r2).
                 eapply Step.ate; try eassumption. lia.
           ++ unfold ret in H. injection H as <- <- <-.
              eapply Step.moved; eassumption.
Qed.
End StepFacts.

(** ** The invariant of a game *)

Lemma In_removelast {A : Type} (x : A) (l : list A) :
  In x (removelast l) -> In x l.
Proof.
  induction l as [|a l IH]; [intros []|].
  destruct l as [|b l]; [intros []|].
  change (removelast (a :: b :: l)) with (a :: removelast (b :: l)).
  intros [<- | H]; [now left | right; now apply IH].
Qed.

Lemma NoDup_removelast {A : Type} (l : list A) :
  NoDup l -> NoDup (removelast l).
Proof.
  induction l as [|a l IH]; intros H; [constructor|].
  destruct l as [|b l]; [constructor|].
  change (removelast (a :: b :: l)) with (a :: removelast (b :: l)).
  inversion H as [|? ? Ha Hl]; subst. constructor.
  - intros Hin. apply Ha. now apply In_removelast.
  - now apply IH.
Qed.

Lemma on_border_false (w h : Z) (p : coord) :
  Step.on_border w h p = false <-> interior w h p.
Proof.
  unfold Step.on_border, interior. rewrite !orb_false_iff.
  rewrite !Z.leb_gt, !Z.geb_leb, !Z.leb_gt. lia.
Qed.

Section Helpers.
Context {R : PyRandom} {T : PyTrig}.

(** What [Snake.move] does when it returns. *)
Lemma move_inv (s s1 : Snake.t) (new_head : coord) :
  Snake.move s = Ok (new_head, s1) ->
  exists head tail,
    Snake.body s = head :: tail
    /\ new_head = (fst head + fst (value (Snake.direction s)),
                   snd head + snd (value (Snake.direction s)))
    /\ Snake.direction s1 = Snake.direction s
    /\ Snake.grow_pending s1 = false
    /\ Snake.body s1
       = new_head :: (if Snake.grow_pending s then Snake.body s
                      else removelast (Snake.body s)).
Proof.
  unfold Snake.move. destruct (Snake.body s) as [|[hx hy] tail] eqn:Hb;
    [discriminate|].
  destruct (value (Snake.direction s)) as [dx dy].
  destruct (Snake.grow_pending s); simpl negb; cbv iota;
    intros [= <- <-]; exists (hx, hy), tail; repeat split.
Qed.

(** What [Food.regenerate] guarantees when it returns. *)
Lemma regenerate_ok fuel (self self' : Food.t) body r r' :
  Food.regenerate fuel self body r = Ok (self', r') ->
  Food.width self' = Food.width self
  /\ Food.height self' = Food.height self
  /\ Food.obstacles self' = Food.obstacles self
  /\ 1 <= fst (Food.position self') <= Food.width self - 2
  /\ 1 <= snd (Food.position self') <= Food.height self - 2
  /\ ~ In (Food.position self') body
  /\ ~ In (Food.position self') (Food.obstacles self).
Proof.
  revert r. induction fuel as [|fuel IH]; intros r H; [discriminate H|].
  cbn [Food.regenerate] in H. unfold bind at 1 in H.
  destruct (randint 1 (Food.width self - 2) r) as [[x r1]| |] eqn:Hx;
    try discriminate H.
  unfold bind at 1 in H.
  destruct (randint 1 (Food.height self - 2) r1) as [[y r2]| |] eqn:Hy;
    try discriminate H.
  destruct (negb (mem (x, y) body) && negb (mem (x, y) (Food.obstacles self)))
    eqn:Hfree.
  - unfold ret in H. injection H as <- _. cbn.
    apply andb_true_iff in Hfree. destruct Hfree as [Hb Ho].
    apply negb_true_iff in Hb, Ho. apply mem_false in Hb, Ho.
    apply randint_Ok in Hx, Hy. auto 10.
  - eapply IH. exact H.
Qed.

(** The list [get_level_obstacles] returns does not depend on the
    generator it is called with. *)
Lemma obstacles_stable level w h r1 obstacles r1' r2 :
  LevelManager.get_level_obstacles level w h r1 = Ok (obstacles, r1') ->
  exists r2',
    LevelManager.get_level_obstacles level w h r2 = Ok (obstacles, r2').
Proof.
  unfold LevelManager.get_level_obstacles, ret.
  repeat match goal with
         | |- context [if ?c then _ else _] =>
             destruct c; [try (intros [= <- _]; eexists; reflexivity)|]
         end;
    try (intros [= <- _]; eexists; reflexivity);
    intros H; exists r1'; rewrite <- H; reflexivity.
Qed.
End Helpers.

Section SoundFacts.
Context {R : PyRandom} {T : PyTrig}.
Import GameState.

Ltac fields :=
  cbn [width height score level foods_eaten foods_per_level game_over
       game_won max_level snake food set_snake set_food set_game_over
       set_game_won set_score set_level set_foods_eaten Step.fed
       Snake.grow Snake.body Snake.grow_pending Snake.direction
       Food.set_obstacles Food.width Food.height Food.obstacles
       Food.position] in *.

(** The snake after a move of a running game. *)
Lemma moved_snake w h n g new_head s1 :
  sound w h n g -> game_over g = false ->
  Snake.move (snake g) = Ok (new_head, s1) ->
  exists rest,
    Snake.body s1 = new_head :: rest
    /\ Snake.grow_pending s1 = false
    /\ Snake.direction s1 = Snake.direction (snake g)
    /\ inside w h rest /\ NoDup rest
    /\ (forall x, In x rest -> In x (Snake.body (snake g)))
    /\ List.length (new_head :: rest) = (1 + n)%nat
    /\ Snake.check_self_collision s1 = Ok (mem new_head rest).
Proof.
  intros Hs Hover Hmove.
  destruct (sound_body _ _ _ _ Hs) as (head & tail & Hb & Hin & Hnd & Hrun & _).
  destruct (Hrun Hover) as [Hhead Hfresh].
  pose proof (sound_length _ _ _ _ Hs) as Hlen.
  apply move_inv in Hmove.
  destruct Hmove as (head' & tail' & Hb' & -> & Hdir & Hpend & Hs1).
  assert (Hbody_in : inside w h (Snake.body (snake g))).
  { rewrite Hb. intros p [<- | Hp]; [exact Hhead | now apply Hin]. }
  assert (Hbody_nd : NoDup (Snake.body (snake g))).
  { rewrite Hb. now constructor. }
  exists (if Snake.grow_pending (snake g) then Snake.body (snake g)
          else removelast (Snake.body (snake g))).
  split; [exact Hs1|]. split; [exact Hpend|]. split; [exact Hdir|].
  unfold Snake.check_self_collision. rewrite Hs1.
  destruct (Snake.grow_pending (snake g)) eqn:Hg.
  - split; [exact Hbody_in|]. split; [exact Hbody_nd|].
    split; [auto|]. split; [|reflexivity].
    cbn [List.length]. lia.
  - split; [intros p Hp; apply Hbody_in; now apply In_removelast|].
    split; [now apply NoDup_removelast|].
    split; [intros x; apply In_removelast|]. split; [|reflexivity].
    rewrite Hb. rewrite Hb in Hlen. cbn [List.length] in *.
    rewrite length_removelast_cons. lia.
Qed.

(** A tick that ends in a collision. *)
Lemma crash_sound w h n g new_head s1 :
  sound w h n g -> Tick.terminal g = false ->
  Snake.move (snake g) = Ok (new_head, s1) ->
  Step.on_border w h new_head = true
  \/ In new_head (Food.obstacles (food g))
  \/ mem new_head (match Snake.body s1 with [] => [] | _ :: rest => rest end)
     = true ->
  sound w h n (set_game_over (set_snake g s1) true).
Proof.
  intros Hs Hterm Hmove Hwhy.
  apply orb_false_elim in Hterm. destruct Hterm as [Hover Hwon].
  destruct (moved_snake _ _ _ _ _ _ Hs Hover Hmove)
    as (rest & Hb1 & Hp1 & _ & Hin & Hnd & Hsub & Hlen & _).
  rewrite Hb1 in Hwhy.
  destruct Hs as [Hw Hh Hfpl Hmax Hfb Hsize Hlev Heat Hsc Hfe Hfl _ _ Hfood Hobs H7].
  destruct Hfood as (Hfx & Hfy & Hfb' & Hfo).
  constructor; fields; auto.
  - rewrite Hb1, Hp1. cbn [List.length] in *. lia.
  - exists new_head, rest. split; [exact Hb1|]. split; [exact Hin|].
    split; [exact Hnd|]. split; [discriminate|].
    intros _. destruct Hwhy as [? | [? | Hm]]; auto.
    right; right. now apply mem_In.
  - split; [exact Hfx|]. split; [exact Hfy|]. split; [|exact Hfo].
    rewrite Hb1. intros [Heq | Hp].
    + rewrite <- Heq in *.
      destruct Hwhy as [Hb | [Ho | Hm]].
      * unfold Step.on_border in Hb. rewrite !orb_true_iff in Hb.
        rewrite !Z.leb_le, !Z.geb_leb, !Z.leb_le in Hb. lia.
      * contradiction.
      * apply mem_In in Hm. apply Hfb'. now apply Hsub.
    + apply Hfb'. now apply Hsub.
Qed.

(** A tick that moves the snake onto a free cell without food. *)
Lemma step_sound w h n g new_head s1 :
  sound w h n g -> Tick.terminal g = false ->
  Snake.move (snake g) = Ok (new_head, s1) ->
  Step.on_border w h new_head = false ->
  Snake.check_self_collision s1 = Ok false ->
  Play.food_ahead g = false ->
  sound w h n (set_snake g s1).
Proof.
  intros Hs Hterm Hmove Hwall Hself Hfood0.
  apply orb_false_elim in Hterm. destruct Hterm as [Hover Hwon].
  destruct (moved_snake _ _ _ _ _ _ Hs Hover Hmove)
    as (rest & Hb1 & Hp1 & _ & Hin & Hnd & Hsub & Hlen & Hcheck).
  rewrite Hcheck in Hself. injection Hself as Hself. apply mem_false in Hself.
  rewrite <- (move_food_ahead _ _ _ Hmove) in Hfood0.
  apply on_border_false in Hwall.
  destruct Hs as [Hw Hh Hfpl Hmax Hfb Hsize Hlev Heat Hsc Hfe Hfl _ _ Hfood Hobs H7].
  destruct Hfood as (Hfx & Hfy & Hfb' & Hfo).
  constructor; fields; auto.
  - rewrite Hb1, Hp1. cbn [List.length] in *. lia.
  - exists new_head, rest. split; [exact Hb1|]. split; [exact Hin|].
    split; [exact Hnd|]. split; [auto|congruence].
  - split; [exact Hfx|]. split; [exact Hfy|]. split; [|exact Hfo].
    rewrite Hb1. intros [Heq | Hp].
    + unfold Food.get_position in Hfood0. rewrite <- Heq in Hfood0.
      assert (Ht : coord_eqb new_head new_head = true) by now apply coord_eqb_eq.
      congruence.
    + apply Hfb'. now apply Hsub.
Qed.

(** What [_advance_level] does when it returns. *)
Lemma advance_inv fuel g r g' r' :
  _advance_level fuel g r = Ok (g', r') ->
  (max_level g <= level g /\ g' = set_game_won g true /\ r' = r)
  \/ (level g < max_level g
      /\ exists obstacles r1 food2,
           LevelManager.get_level_obstacles (level g + 1) (width g) (height g) r
           = Ok (obstacles, r1)
           /\ Food.regenerate fuel (Food.set_obstacles (food g) obstacles)
                (Snake.body (snake g)) r1 = Ok (food2, r')
           /\ g' = set_food
                     (set_score (set_foods_eaten (set_level g (level g + 1)) 0)
                        (score g + 50))
                     food2).
Proof.
  unfold _advance_level. intros H.
  destruct (level g >=? max_level g) eqn:Hmax.
  - unfold ret in H. injection H as <- <-. left. repeat split. lia.
  - right. split; [lia|].
    unfold bind at 1 in H.
    cbn [level width height set_level set_foods_eaten set_score] in H.
    destruct (LevelManager.get_level_obstacles (level g + 1) (width g)
                (height g) r) as [[obstacles r1]| |] eqn:Hobs;
      try discriminate H.
    unfold bind at 1 in H.
    cbn [food snake set_food set_level set_foods_eaten set_score
         Snake.get_body] in H.
    unfold Snake.get_body in H.
    destruct (Food.regenerate fuel (Food.set_obstacles (food g) obstacles)
                (Snake.body (snake g)) r1) as [[food2 r2]| |] eqn:Hregen;
      try discriminate H.
    unfold ret in H. injection H as <- <-.
    exists obstacles, r1, food2. repeat split. exact Hregen.
Qed.

(** The snake and the food right after the food has been eaten. *)
Lemma fed_facts w h n fuel g new_head s1 food1 r1 r2 :
  sound w h n g -> Tick.terminal g = false ->
  Snake.move (snake g) = Ok (new_head, s1) ->
  Step.on_border w h new_head = false ->
  Snake.check_self_collision s1 = Ok false ->
  Food.regenerate fuel (food g) (Snake.body s1) r1 = Ok (food1, r2) ->
  exists rest,
    Snake.body s1 = new_head :: rest
    /\ interior w h new_head /\ ~ In new_head rest
    /\ inside w h rest /\ NoDup rest
    /\ List.length (new_head :: rest) = (1 + n)%nat
    /\ Food.width food1 = w /\ Food.height food1 = h
    /\ Food.obstacles food1 = Food.obstacles (food g)
    /\ 1 <= fst (Food.position food1) <= w - 2
    /\ 1 <= snd (Food.position food1) <= h - 2
    /\ ~ In (Food.position food1) (new_head :: rest)
    /\ ~ In (Food.position food1) (Food.obstacles (food g)).
Proof.
  intros Hs Hterm Hmove Hwall Hself Hregen.
  apply orb_false_elim in Hterm. destruct Hterm as [Hover Hwon].
  destruct (moved_snake _ _ _ _ _ _ Hs Hover Hmove)
    as (rest & Hb1 & Hp1 & _ & Hin & Hnd & Hsub & Hlen & Hcheck).
  rewrite Hcheck in Hself. injection Hself as Hself. apply mem_false in Hself.
  apply on_border_false in Hwall.
  apply regenerate_ok in Hregen.
  destruct (sound_food_board _ _ _ _ Hs) as [Hfw Hfh].
  rewrite Hfw, Hfh, Hb1 in Hregen.
  destruct Hregen as (Hw1 & Hh1 & Ho1 & Hx & Hy & Hnb & Hno).
  exists rest. auto 20.
Qed.

Ltac closing :=
  try match goal with
      | Hover : game_over _ = false, Hwon : game_won _ = false |- _ =>
          solve [ rewrite ?Hover, ?Hwon; (reflexivity || lia) ]
      end;
  try match goal with
      | Hb1 : Snake.body _ = _ :: _ |- (_ = _)%nat =>
          solve [ rewrite Hb1; cbn [List.length] in *; lia ]
      end.

(** Every returning call of [update] keeps the state sound and counts
    the food it ate. *)
Lemma path_sound w h n fuel g r ok g' r' :
  sound w h n g -> Step.path fuel g r ok g' r' ->
  sound w h (if ok && Play.food_ahead g then S n else n) g'.
Proof.
  intros Hs Hp.
  pose proof (sound_width _ _ _ _ Hs) as Hw.
  pose proof (sound_height _ _ _ _ Hs) as Hh.
  destruct Hp as [ Hterm
                 | nh s1 Hterm Hmove Hwall
                 | nh s1 obs r1 Hterm Hmove Hwall Hobs Hmem
                 | nh s1 obs r1 Hterm Hmove Hwall Hobs Hmem Hself
                 | nh s1 obs r1 Hterm Hmove Hwall Hobs Hmem Hself Hfood
                 | nh s1 obs r1 food1 r2 Hterm Hmove Hwall Hobs Hmem Hself
                     Hfood Hregen Hfew
                 | nh s1 obs r1 food1 r2 g2 r3 Hterm Hmove Hwall Hobs Hmem
                     Hself Hfood Hregen Hfull Hadv ];
    rewrite ?Hw, ?Hh in *; cbn [andb].
  - exact Hs.
  - eapply crash_sound; eauto.
  - eapply crash_sound; eauto. right; left.
    destruct (sound_obstacles _ _ _ _ Hs r) as [r1' Hsame].
    rewrite Hsame in Hobs. injection Hobs as <- _. now apply mem_In.
  - eapply crash_sound; eauto. right; right.
    apply orb_false_elim in Hterm.
    destruct (moved_snake _ _ _ _ _ _ Hs (proj1 Hterm) Hmove)
      as (rest & Hb1 & _ & _ & _ & _ & _ & _ & Hcheck).
    rewrite Hb1. congruence.
  - rewrite Hfood. eapply step_sound; eauto.
  - rewrite Hfood.
    destruct (fed_facts _ _ _ _ _ _ _ _ _ _ Hs Hterm Hmove Hwall Hself Hregen)
      as (rest & Hb1 & Hhead & Hfresh & Hin & Hnd & Hlen & Hfw & Hfh & Hfo
          & Hx & Hy & Hnb & Hno).
    apply orb_false_elim in Hterm. destruct Hterm as [Hover Hwon].
    destruct Hs as [_ _ Hfpl Hmax Hfb Hsize Hlev Heat Hsc Hfe Hfl _ _ _ Hobs' H7].
    rewrite Hwon in Hfe.
    constructor; fields; auto; try lia; closing.
    + exists nh, rest. split; [exact Hb1|]. split; [exact Hin|].
      split; [exact Hnd|]. split; [auto|congruence].
    + rewrite Hb1, Hfo. auto.
    + rewrite Hfo. exact Hobs'.
  - rewrite Hfood.
    destruct (fed_facts _ _ _ _ _ _ _ _ _ _ Hs Hterm Hmove Hwall Hself Hregen)
      as (rest & Hb1 & Hhead & Hfresh & Hin & Hnd & Hlen & Hfw & Hfh & Hfo
          & Hx & Hy & Hnb & Hno).
    apply orb_false_elim in Hterm. destruct Hterm as [Hover Hwon].
    destruct Hs as [_ _ Hfpl Hmax Hfb Hsize Hlev Heat Hsc Hfe Hfl _ _ _ Hobs' H7].
    rewrite Hwon in Hfe.
    apply advance_inv in Hadv. fields.
    destruct Hadv as [(Hlast & -> & _)
                     | (Hnext & obs2 & r4 & food2 & Hobs2 & Hregen2 & ->)].
    + constructor; fields; auto; try lia; closing.
      * exists nh, rest. split; [exact Hb1|]. split; [exact Hin|].
        split; [exact Hnd|]. split; [auto|congruence].
      * rewrite Hb1, Hfo. auto.
      * rewrite Hfo. exact Hobs'.
    + apply regenerate_ok in Hregen2. fields.
      rewrite Hw, Hh in Hobs2. rewrite Hfw, Hfh, Hb1 in Hregen2.
      destruct Hregen2 as (Hw2 & Hh2 & Ho2 & Hx2 & Hy2 & Hnb2 & Hno2).
      constructor; fields; auto; try lia; closing.
      * exists nh, rest. split; [exact Hb1|]. split; [exact Hin|].
        split; [exact Hnd|]. split; [auto|congruence].
      * rewrite Hb1, Ho2. auto.
      * rewrite Ho2. intros r0. eapply obstacles_stable. exact Hobs2.
      * intros Hseven. destruct (Z.eq_dec (level g + 1) 7) as [Heq|Hne].
        -- rewrite Heq in Hobs2. eauto.
        -- apply H7. lia.
Qed.
End SoundFacts.

Section ReachFacts.
Context {R : PyRandom} {T : PyTrig}.
Import GameState.

Ltac fields :=
  cbn [width height score level foods_eaten foods_per_level game_over
       game_won max_level snake food set_snake set_food set_game_over
       set_game_won set_score set_level set_foods_eaten Step.fed
       Snake.grow Snake.body Snake.grow_pending Snake.direction
       Snake.__init__ Snake.get_body
       Food.set_obstacles Food.width Food.height Food.obstacles
       Food.position] in *.

(** What [Food._generate_position] guarantees when it returns. *)
Lemma generate_position_ok fuel w h obstacles r p r' :
  Food._generate_position fuel w h obstacles r = Ok (p, r') ->
  1 <= fst p <= w - 2 /\ 1 <= snd p <= h - 2 /\ ~ In p obstacles.
Proof.
  revert r. induction fuel as [|fuel IH]; intros r H; [discriminate H|].
  cbn [Food._generate_position] in H. unfold bind at 1 in H.
  destruct (randint 1 (w - 2) r) as [[x r1]| |] eqn:Hx; try discriminate H.
  unfold bind at 1 in H.
  destruct (randint 1 (h - 2) r1) as [[y r2]| |] eqn:Hy; try discriminate H.
  destruct (negb (mem (x, y) obstacles)) eqn:Hfree.
  - unfold ret in H. injection H as <- _. cbn [fst snd].
    apply negb_true_iff in Hfree. apply mem_false in Hfree.
    apply randint_Ok in Hx, Hy. auto.
  - eapply IH. exact H.
Qed.

Lemma init_sound fuel w h r g0 r' :
  __init__ fuel w h r = Ok (g0, r') -> sound w h 0 g0.
Proof.
  unfold __init__. intros H.
  unfold bind at 1 in H. cbn in H.
  unfold bind at 1 in H. unfold Food.__init__ in H. unfold bind at 1 in H.
  destruct (Food._generate_position fuel w h [] r) as [[p r1]| |] eqn:Hgen;
    try discriminate H.
  unfold ret at 1 in H. unfold bind at 1 in H.
  destruct (Food.regenerate fuel _ _ r1) as [[f r2]| |] eqn:Hregen;
    try discriminate H.
  unfold ret in H. injection H as <- _.
  apply generate_position_ok in Hgen. apply regenerate_ok in Hregen.
  fields. destruct Hregen as (Hfw & Hfh & Hfo & Hx & Hy & Hnb & Hno).
  assert (Hsize : 3 <= w /\ 3 <= h) by lia.
  constructor; fields; auto; try lia.
  - exists (w / 2, h / 2), []. split; [reflexivity|].
    split; [intros q []|]. split; [constructor|]. split; [|discriminate].
    intros _. split; [|intros []]. unfold interior. cbn [fst snd].
    Z.to_euclidean_division_equations. lia.
  - rewrite Hfo. auto.
  - rewrite Hfo. intros r0. exists r0. reflexivity.
Qed.

Lemma turn_sound w h n g d :
  sound w h n g -> sound w h n (change_snake_direction g d).
Proof.
  intros Hs. unfold change_snake_direction.
  assert (Hb : Snake.body (Snake.change_direction (snake g) d)
               = Snake.body (snake g)
               /\ Snake.grow_pending (Snake.change_direction (snake g) d)
                  = Snake.grow_pending (snake g)).
  { unfold Snake.change_direction.
    repeat match goal with
           | |- context [if ?c then _ else _] => destruct c
           end; split; reflexivity. }
  destruct Hb as [Hb Hp].
  destruct Hs. constructor; fields; rewrite ?Hb, ?Hp; assumption.
Qed.

Lemma run_sound w h fuel acts g n r g' n' r' :
  Play.run fuel acts g n r = Ok ((g', n'), r') ->
  sound w h n g -> sound w h n' g'.
Proof.
  revert g n r. induction acts as [|[|d] acts IH]; intros g n r H Hs.
  - cbn in H. injection H as <- <- _. exact Hs.
  - cbn [Play.run] in H. unfold bind at 1 in H.
    destruct (update fuel g r) as [[[ok g1] r1]| |] eqn:Hu; try discriminate H.
    apply update_path in Hu.
    eapply IH; [exact H|]. eapply path_sound; eassumption.
  - cbn [Play.run] in H. eapply IH; [exact H|]. now apply turn_sound.
Qed.

(** Every state of every game is sound. *)
Lemma play_sound fuel w h acts r0 g n r :
  Play.play fuel w h acts r0 = Ok ((g, n), r) -> sound w h n g.
Proof.
  unfold Play.play. intros H. unfold bind at 1 in H.
  destruct (__init__ fuel w h r0) as [[g0 r1]| |] eqn:Hinit; try discriminate H.
  eapply run_sound; [exact H|]. eapply init_sound; exact Hinit.
Qed.
End ReachFacts.

(** ** Outcomes of the obstacle generators *)

Section ObstacleOutcomes.
Context {R : PyRandom} {T : PyTrig}.
Import LevelManager.

(** A loop whose body always returns, returns. *)
Lemma repeat_M_returns {S : Type} (P : S -> Prop) (n : nat)
    (body : S -> M S) (s : S) (r : rng) :
  P s ->
  (forall acc g, P acc -> exists acc' g', body acc g = Ok (acc', g') /\ P acc') ->
  exists s' r', repeat_M n body s r = Ok (s', r') /\ P s'.
Proof.
  intros Hs Hbody. revert s r Hs.
  induction n as [|n IH]; intros s r Hs; cbn [repeat_M].
  - exists s, r. split; [reflexivity | exact Hs].
  - destruct (Hbody s r Hs) as (s1 & r1 & Hb & Hs1).
    unfold bind. rewrite Hb. now apply IH.
Qed.

(** A loop whose body raises at once, raises, unless it runs no round. *)
Lemma repeat_M_raises {S : Type} (n : nat) (body : S -> M S) (s : S)
    (r : rng) (e : exn) :
  (0 < n)%nat -> body s r = Raise e -> repeat_M n body s r = Raise e.
Proof.
  intros Hn Hb. destruct n as [|n]; [lia|].
  cbn [repeat_M]. unfold bind. rewrite Hb. reflexivity.
Qed.

Lemma randint_raises a b r : b < a -> randint a b r = Raise ValueError.
Proof.
  intros Hab. unfold randint. apply Z.ltb_lt in Hab. rewrite Hab. reflexivity.
Qed.

(** Each round of the level-7 loop appends one cell. *)
Lemma level7_rounds w h n (acc : list coord) g (l : list coord) g' :
  repeat_M n
    (fun obstacles : list coord =>
       bind (randint 4 (w - 5)) (fun x =>
       bind (randint 4 (h - 5)) (fun y =>
       ret (obstacles ++ [(x, y)])))) acc g = Ok (l, g') ->
  List.length l = (List.length acc + n)%nat.
Proof.
  revert acc g. induction n as [|n IH]; intros acc g Hrun; cbn [repeat_M] in Hrun.
  - unfold ret in Hrun. injection Hrun as <- _. lia.
  - unfold bind at 1 in Hrun. unfold bind at 1 in Hrun.
    destruct (randint 4 (w - 5) g) as [[x g1]| |]; try discriminate Hrun.
    unfold bind at 1 in Hrun.
    destruct (randint 4 (h - 5) g1) as [[y g2]| |]; try discriminate Hrun.
    unfold ret at 1 in Hrun. apply IH in Hrun.
    rewrite Hrun, length_app. cbn [List.length]. lia.
Qed.

(** The scatter of level 7: [min(20, width * height // 20)] cells, and
    [ValueError] when a round is run on a board too small for
    [randint(4, width - 5)] or [randint(4, height - 5)]. *)
Lemma level7_outcome w h r :
  (20 <= w * h /\ (w < 9 \/ h < 9) -> level7 w h r = Raise ValueError)
  /\ (~ (20 <= w * h /\ (w < 9 \/ h < 9)) ->
      exists obstacles r',
        level7 w h r = Ok (obstacles, r')
        /\ Z.of_nat (List.length obstacles) = Z.max 0 (Z.min 20 (w * h / 20))).
Proof.
  unfold level7. unfold bind at 1, seed.
  set (count := Z.to_nat (Z.min 20 (w * h / 20))).
  assert (Hcount : (0 < count)%nat <-> 20 <= w * h).
  { unfold count. split; intros Hc.
    - assert (1 <= w * h / 20) by lia.
      Z.to_euclidean_division_equations. lia.
    - assert (1 <= w * h / 20)
        by (Z.to_euclidean_division_equations; lia).
      lia. }
  split.
  - intros [Harea Hsmall]. apply repeat_M_raises; [now apply Hcount|].
    unfold bind at 1. destruct (Z_lt_le_dec w 9) as [Hw|Hw].
    + rewrite randint_raises by lia. reflexivity.
    + destruct (randint_total 4 (w - 5) (rng_seed 42)) as (x & r1 & -> & _);
        [lia|].
      unfold bind at 1. rewrite randint_raises by lia. reflexivity.
  - intros Hok. destruct (Z_lt_le_dec (w * h) 20) as [Harea|Harea].
    + assert (Hzero : count = 0%nat).
      { destruct count; [reflexivity|]. lia. }
      rewrite Hzero. cbn [repeat_M]. exists [], (rng_seed 42).
      split; [reflexivity|]. cbn [List.length].
      assert (w * h / 20 <= 0)
        by (Z.to_euclidean_division_equations; lia).
      lia.
    + assert (Hw : 9 <= w) by lia. assert (Hh : 9 <= h) by lia.
      destruct (repeat_M_returns
                  (fun _ : list coord => True) count
                  (fun obstacles =>
                     bind (randint 4 (w - 5)) (fun x =>
                     bind (randint 4 (h - 5)) (fun y =>
                     ret (obstacles ++ [(x, y)]))))
                  [] (rng_seed 42) I) as (l & r' & Hl & _).
      { intros acc g _.
        destruct (randint_total 4 (w - 5) g) as (x & g1 & Hx & _); [lia|].
        destruct (randint_total 4 (h - 5) g1) as (y & g2 & Hy & _); [lia|].
        exists (acc ++ [(x, y)]), g2. unfold bind. rewrite Hx, Hy.
        split; [reflexivity | exact I]. }
      exists l, r'. split; [exact Hl|].
      apply level7_rounds in Hl. rewrite Hl. cbn [List.length]. unfold count.
      assert (1 <= w * h / 20)
        by (Z.to_euclidean_division_equations; lia).
      lia.
Qed.

(** The scatter of the levels from 10 on fails the same way on boards
    too small for [randint(3, width - 4)] or [randint(3, height - 4)]. *)
Lemma level10_outcome level w h r :
  10 <= level ->
  (15 <= w * h /\ (w < 7 \/ h < 7) -> level10 level w h r = Raise ValueError)
  /\ (~ (15 <= w * h /\ (w < 7 \/ h < 7)) ->
      exists obstacles r', level10 level w h r = Ok (obstacles, r')).
Proof.
  intros Hlevel. unfold level10. unfold bind at 1, seed. cbv zeta.
  set (cross := for_each _ _ _).
  set (count := Z.to_nat (Z.min (30 + level) (w * h / 15))).
  assert (Hcount : (0 < count)%nat <-> 15 <= w * h).
  { unfold count. split; intros Hc.
    - assert (1 <= w * h / 15) by lia.
      Z.to_euclidean_division_equations. lia.
    - assert (1 <= w * h / 15)
        by (Z.to_euclidean_division_equations; lia).
      lia. }
  split.
  - intros [Harea Hsmall]. apply repeat_M_raises; [now apply Hcount|].
    unfold bind at 1. destruct (Z_lt_le_dec w 7) as [Hw|Hw].
    + rewrite randint_raises by lia. reflexivity.
    + destruct (randint_total 3 (w - 4) (rng_seed level)) as (x & r1 & -> & _);
        [lia|].
      unfold bind at 1. rewrite randint_raises by lia. reflexivity.
  - intros Hok. destruct (Z_lt_le_dec (w * h) 15) as [Harea|Harea].
    + assert (Hzero : count = 0%nat).
      { destruct count; [reflexivity|]. lia. }
      rewrite Hzero. cbn [repeat_M]. exists cross, (rng_seed level).
      reflexivity.
    + assert (Hw : 7 <= w) by lia. assert (Hh : 7 <= h) by lia.
      destruct (repeat_M_returns
                  (fun _ : list coord => True) count
                  (fun obstacles =>
                     bind (randint 3 (w - 4)) (fun x =>
                     bind (randint 3 (h - 4)) (fun y =>
                     if negb (mem (x, y) obstacles)
                     then ret (obstacles ++ [(x, y)]) else ret obstacles)))
                  cross (rng_seed level) I) as (l & r' & Hl & _).
      { intros acc g _.
        destruct (randint_total 3 (w - 4) g) as (x & g1 & Hx & _); [lia|].
        destruct (randint_total 3 (h - 4) g1) as (y & g2 & Hy & _); [lia|].
        unfold bind. rewrite Hx, Hy.
        destruct (negb (mem (x, y) acc)); eexists; eexists;
          (split; [reflexivity | exact I]). }
      exists l, r'. exact Hl.
Qed.

(** X9 — [get_level_obstacles] raises [ValueError] exactly at level 7 on a
    board of at least 20 cells that is narrower or lower than 9, and at
    a level from 10 on on a board of at least 15 cells that is narrower
    or lower than 7; on every other input it returns a list. *)
Theorem obstacles_raise_on_small_boards level w h r :
  let too_small :=
    (level = 7 /\ 20 <= w * h /\ (w < 9 \/ h < 9))
    \/ (10 <= level /\ 15 <= w * h /\ (w < 7 \/ h < 7)) in
  (too_small -> get_level_obstacles level w h r = Raise ValueError)
  /\ (~ too_small ->
      exists obstacles r',
        get_level_obstacles level w h r = Ok (obstacles, r')).
Proof.
  intros too_small. subst too_small. unfold get_level_obstacles, ret.
  destruct (Z.eqb_spec level 1); [split; [lia | eauto]|].
  destruct (Z.eqb_spec level 2); [split; [lia | eauto]|].
  destruct (Z.eqb_spec level 3); [split; [lia | eauto]|].
  destruct (Z.eqb_spec level 4); [split; [lia | eauto]|].
  destruct (Z.eqb_spec level 5); [split; [lia | eauto]|].
  destruct (Z.eqb_spec level 6); [split; [lia | eauto]|].
  destruct (Z.eqb_spec level 7).
  { destruct (level7_outcome w h r) as [Hbad Hgood]. split.
    - intros [(_ & H) | (H & _)]; [now apply Hbad | lia].
    - intros H. destruct (Hgood ltac:(tauto)) as (l & r' & Hl & _). eauto. }
  destruct (Z.eqb_spec level 8); [split; [lia | eauto]|].
  destruct (Z.eqb_spec level 9); [split; [lia | eauto]|].
  destruct (level >=? 10) eqn:Hge.
  - assert (Hl : 10 <= level) by lia.
    destruct (level10_outcome level w h r Hl) as [Hbad Hgood]. split.
    + intros [(H & _) | (_ & H)]; [lia | now apply Hbad].
    + intros H. apply Hgood. tauto.
  - split; [lia | eauto].
Qed.
End ObstacleOutcomes.

(** ** What every game keeps *)

(** A duplicate-free list of interior cells is no longer than the
    interior is large. *)
Lemma interior_capacity (w h : Z) (l : list coord) :
  3 <= w -> 3 <= h -> NoDup l -> inside w h l ->
  Z.of_nat (List.length l) <= (w - 2) * (h - 2).
Proof.
  intros Hw Hh Hnd Hin.
  assert (Hincl : incl l (list_prod (py_range 1 (w - 1)) (py_range 1 (h - 1)))).
  { intros [x y] Hp. apply in_prod_iff. destruct (Hin _ Hp) as [Hx Hy].
    cbn [fst snd] in *. split; apply In_py_range; lia. }
  apply NoDup_incl_length in Hincl; [|exact Hnd].
  unfold coord in *. rewrite length_prod in Hincl. unfold py_range in Hincl.
  rewrite !length_map, !length_seq in Hincl. nia.
Qed.

Section GameFacts.
Context {R : PyRandom} {T : PyTrig}.
Import GameState.

(** X1 — in every state of a game the counters are functions of the
    number of foods eaten so far: the level is [min(10, eaten // 5 + 1)],
    [foods_eaten] is what is left over, the score is 10 per food plus
    50 per completed level, and no game eats more than 50 foods. *)
Theorem counters_follow_foods fuel w h acts r0 g n r :
  Play.play fuel w h acts r0 = Ok ((g, n), r) ->
  level g = Z.min 10 (Z.of_nat n / 5 + 1)
  /\ foods_eaten g = Z.of_nat n - 5 * (level g - 1)
  /\ score g = 10 * Z.of_nat n + 50 * (level g - 1)
  /\ (n <= 50)%nat.
Proof.
  intros H. apply play_sound in H.
  destruct H as [_ _ _ _ _ _ Hlev Heat Hsc [Hfe0 Hfe] _ _ _ _ _ _].
  destruct (game_won g).
  - destruct Hfe as [Hfe Hl]. rewrite Hl, Hfe in *.
    assert (Hn : Z.of_nat n = 50) by lia. rewrite Hn. cbn. lia.
  - assert (Hq : Z.of_nat n / 5 = level g - 1).
    { symmetry. apply (Z.div_unique _ _ _ (foods_eaten g)); lia. }
    rewrite Hq. lia.
Qed.

(** X2 — the game is won exactly when 50 foods have been eaten; it is
    then on the final level, and no state is both over and won. *)
Theorem won_iff_fifty_foods fuel w h acts r0 g n r :
  Play.play fuel w h acts r0 = Ok ((g, n), r) ->
  (is_game_won g = true <-> n = 50%nat)
  /\ (is_game_won g = true ->
      level g = LevelManager.get_max_level
      /\ Levels.is_final_level (level g) = true)
  /\ is_game_over g && is_game_won g = false.
Proof.
  intros H. apply play_sound in H. unfold is_game_won, is_game_over.
  destruct H as [_ _ _ _ _ _ Hlev Heat Hsc [Hfe0 Hfe] Hfl _ _ _ _ _].
  unfold Levels.is_final_level, LevelManager.get_max_level.
  destruct (game_won g).
  - destruct Hfe as [Hfe Hl]. rewrite Hl. repeat split; auto; lia.
  - repeat split; auto; try discriminate. lia.
Qed.

(** X3 — the snake is as long as the foods it has eaten, plus its first
    cell, the last food counting once the next move has kept the tail. *)
Theorem snake_length_counts_foods fuel w h acts r0 g n r :
  Play.play fuel w h acts r0 = Ok ((g, n), r) ->
  (List.length (Snake.get_body (snake g))
   + (if Snake.grow_pending (snake g) then 1 else 0) = 1 + n)%nat.
Proof.
  intros H. apply play_sound in H. exact (sound_length _ _ _ _ H).
Qed.

(** X4 — the snake always has a head; while the game is not over its
    cells are pairwise distinct and all strictly inside the border ring,
    and it fits the interior. *)
Theorem running_snake_is_simple fuel w h acts r0 g n r :
  Play.play fuel w h acts r0 = Ok ((g, n), r) ->
  (exists head, Snake.get_head (snake g) = Ok head)
  /\ (is_game_over g = false ->
      NoDup (Snake.get_body (snake g))
      /\ inside w h (Snake.get_body (snake g))
      /\ Z.of_nat (List.length (Snake.get_body (snake g)))
         <= (w - 2) * (h - 2)).
Proof.
  intros H. apply play_sound in H.
  destruct (sound_body _ _ _ _ H) as (head & tail & Hb & Hin & Hnd & Hrun & _).
  destruct (sound_size _ _ _ _ H) as [Hw Hh].
  unfold Snake.get_head, Snake.get_body, is_game_over. rewrite Hb.
  split; [eauto|]. intros Hover. destruct (Hrun Hover) as [Hhead Hfresh].
  assert (Hnd' : NoDup (head :: tail)) by now constructor.
  assert (Hin' : inside w h (head :: tail)).
  { intros p [<- | Hp]; [exact Hhead | now apply Hin]. }
  split; [exact Hnd'|]. split; [exact Hin'|].
  now apply interior_capacity.
Qed.

(** X5 — the food is always on an interior cell that is neither under
    the snake nor on an obstacle of the current level. *)
Theorem food_on_free_cell fuel w h acts r0 g n r :
  Play.play fuel w h acts r0 = Ok ((g, n), r) ->
  1 <= fst (Food.get_position (food g)) <= w - 2
  /\ 1 <= snd (Food.get_position (food g)) <= h - 2
  /\ ~ In (Food.get_position (food g)) (Snake.get_body (snake g))
  /\ forall r1, exists obstacles r2,
       get_obstacles g r1 = Ok (obstacles, r2)
       /\ ~ In (Food.get_position (food g)) obstacles.
Proof.
  intros H. apply play_sound in H.
  destruct (sound_food _ _ _ _ H) as (Hx & Hy & Hb & Ho).
  unfold Food.get_position, Snake.get_body, get_obstacles.
  rewrite (sound_width _ _ _ _ H), (sound_height _ _ _ _ H).
  repeat split; try tauto.
  intros r1. destruct (sound_obstacles _ _ _ _ H r1) as [r2 Hobs].
  exists (Food.obstacles (food g)), r2. split; assumption.
Qed.

(** X6 — the obstacle list kept by the food is always the list
    [get_obstacles] computes, which therefore never raises. *)
Theorem food_obstacles_in_sync fuel w h acts r0 g n r :
  Play.play fuel w h acts r0 = Ok ((g, n), r) ->
  forall r1, exists r2,
    get_obstacles g r1 = Ok (Food.obstacles (food g), r2).
Proof.
  intros H. apply play_sound in H. unfold get_obstacles.
  rewrite (sound_width _ _ _ _ H), (sound_height _ _ _ _ H).
  exact (sound_obstacles _ _ _ _ H).
Qed.

(** X7 — a game that is over has its head on the border ring, on an
    obstacle of the level, or on another cell of the snake. *)
Theorem game_over_has_a_cause fuel w h acts r0 g n r :
  Play.play fuel w h acts r0 = Ok ((g, n), r) ->
  is_game_over g = true ->
  exists head tail,
    Snake.get_body (snake g) = head :: tail
    /\ (Step.on_border w h head = true
        \/ (forall r1, exists obstacles r2,
              get_obstacles g r1 = Ok (obstacles, r2) /\ In head obstacles)
        \/ Snake.check_self_collision (snake g) = Ok true).
Proof.
  intros H Hover. apply play_sound in H.
  destruct (sound_body _ _ _ _ H) as (head & tail & Hb & _ & _ & _ & Hwhy).
  exists head, tail. split; [exact Hb|].
  destruct (Hwhy Hover) as [Hwall | [Hobs | Hself]]; [now left | |].
  - right; left. intros r1. unfold get_obstacles.
    rewrite (sound_width _ _ _ _ H), (sound_height _ _ _ _ H).
    destruct (sound_obstacles _ _ _ _ H r1) as [r2 Hr]. eauto.
  - right; right. unfold Snake.check_self_collision. rewrite Hb.
    f_equal. now apply mem_In.
Qed.

(** X8 — a game exists only on boards of at least 3 x 3, eats at most one
    food more than the interior has cells, and is past level 6 only on
    boards of at least 9 x 9. *)
Theorem board_bounds_the_game fuel w h acts r0 g n r :
  Play.play fuel w h acts r0 = Ok ((g, n), r) ->
  3 <= w /\ 3 <= h
  /\ Z.of_nat n <= (w - 2) * (h - 2) + 1
  /\ (7 <= level g -> 9 <= w /\ 9 <= h).
Proof.
  intros H. apply play_sound in H.
  destruct (sound_size _ _ _ _ H) as [Hw Hh].
  destruct (sound_body _ _ _ _ H) as (head & tail & Hb & Hin & Hnd & _ & _).
  pose proof (sound_length _ _ _ _ H) as Hlen. rewrite Hb in Hlen.
  cbn [List.length] in Hlen.
  pose proof (interior_capacity w h tail Hw Hh Hnd Hin) as Hcap.
  assert (Hn : Z.of_nat n <= (w - 2) * (h - 2) + 1).
  { destruct (Snake.grow_pending (snake g)); lia. }
  split; [exact Hw|]. split; [exact Hh|]. split; [exact Hn|].
  intros H7. destruct (sound_seventh _ _ _ _ H H7) as (r1 & l & r2 & Hl).
  pose proof (sound_eaten _ _ _ _ H) as Heat.
  destruct (sound_foods_eaten _ _ _ _ H) as [Hfe0 _].
  change (LevelManager.get_level_obstacles 7 w h r1)
    with (LevelManager.level7 w h r1) in Hl.
  destruct (level7_outcome w h r1) as [Hbad _].
  destruct (Z_lt_le_dec w 9) as [Hw9|Hw9];
    [|destruct (Z_lt_le_dec h 9) as [Hh9|Hh9]; [|lia]];
    (rewrite Hbad in Hl; [discriminate Hl|]); (split; [nia | lia]).
Qed.
End GameFacts.

(** ** Turning, determinism and frame *)

Section TurnFacts.
Context {R : PyRandom} {T : PyTrig}.
Import GameState.

Lemma opposite_value (a b : Direction) :
  opposite_of a b = true ->
  value b = (- fst (value a), - snd (value a)).
Proof. destruct a, b; simpl; intros H; try discriminate H; reflexivity. Qed.

Lemma not_opposite_value (a b : Direction) :
  opposite_of a b = false ->
  value b <> (- fst (value a), - snd (value a)).
Proof. destruct a, b; simpl; intros H; try discriminate H; discriminate. Qed.

Lemma change_direction_fields (s : Snake.t) (d : Direction) :
  Snake.body (Snake.change_direction s d) = Snake.body s
  /\ Snake.grow_pending (Snake.change_direction s d) = Snake.grow_pending s
  /\ Snake.direction (Snake.change_direction s d)
     = if opposite_of (Snake.direction s) d then Snake.direction s else d.
Proof.
  unfold Snake.change_direction. destruct s as [body dir pending].
  cbn [Snake.direction Snake.body Snake.grow_pending].
  destruct dir, d; cbn; repeat split.
Qed.

(** X11 — after one [change_snake_direction], whatever the direction
    asked for, the next move does not take the head back onto the cell
    behind it. *)
Theorem single_turn_keeps_off_the_neck g d head rest new_head s1 :
  Snake.body (snake g)
  = head :: (fst head - fst (value (Snake.direction (snake g))),
             snd head - snd (value (Snake.direction (snake g)))) :: rest ->
  Snake.move (snake (change_snake_direction g d)) = Ok (new_head, s1) ->
  new_head <> (fst head - fst (value (Snake.direction (snake g))),
               snd head - snd (value (Snake.direction (snake g)))).
Proof.
  intros Hb Hmove. apply move_inv in Hmove.
  destruct Hmove as (head' & tail' & Hb' & -> & _).
  unfold change_snake_direction in *. cbn [snake set_snake] in *.
  destruct (change_direction_fields (snake g) d) as (Hbody & _ & Hdir).
  rewrite Hbody, Hb in Hb'. injection Hb' as <- _. rewrite Hdir.
  destruct (opposite_of (Snake.direction (snake g)) d) eqn:Hopp.
  - intros Heq. pose proof (f_equal fst Heq) as H1.
    pose proof (f_equal snd Heq) as H2. cbn [fst snd] in H1, H2.
    destruct (Snake.direction (snake g)); cbn [value fst snd] in H1, H2; lia.
  - apply not_opposite_value in Hopp. intros Heq. apply Hopp.
    pose proof (f_equal fst Heq) as H1.
    pose proof (f_equal snd Heq) as H2. cbn [fst snd] in H1, H2.
    destruct (value d) as [dx dy]. cbn [fst snd] in *. f_equal; lia.
Qed.

(** X12 — two calls of [change_snake_direction] between ticks do reverse
    the snake: a sideways turn followed by the turn back onto the neck
    is accepted, and the next [update] of a snake of three cells or more
    (or of two with growth pending) ends the game. *)
Theorem two_turns_reverse_into_the_neck fuel g side back head rest r ok g' r' :
  Tick.terminal g = false ->
  Snake.body (snake g)
  = head :: (fst head - fst (value (Snake.direction (snake g))),
             snd head - snd (value (Snake.direction (snake g)))) :: rest ->
  rest <> [] \/ Snake.grow_pending (snake g) = true ->
  opposite_of (Snake.direction (snake g)) side = false ->
  opposite_of side back = false ->
  opposite_of (Snake.direction (snake g)) back = true ->
  update fuel
    (change_snake_direction (change_snake_direction g side) back) r
  = Ok ((ok, g'), r') ->
  Snake.direction
    (snake (change_snake_direction (change_snake_direction g side) back))
  = back
  /\ ok = false /\ is_game_over g' = true.
Proof.
  intros Hterm Hb Hlong Hside Hback Hopp Hu.
  set (g2 := change_snake_direction (change_snake_direction g side) back) in *.
  destruct (change_direction_fields (snake g) side) as (Hb1 & Hp1 & Hd1).
  rewrite Hside in Hd1.
  destruct (change_direction_fields
              (Snake.change_direction (snake g) side) back) as (Hb2 & Hp2 & Hd2).
  rewrite Hd1, Hback in Hd2. rewrite Hb1 in Hb2. rewrite Hp1 in Hp2.
  assert (Hsnake : snake g2
                   = Snake.change_direction
                       (Snake.change_direction (snake g) side) back)
    by reflexivity.
  split; [rewrite Hsnake; exact Hd2|].
  assert (Hbite : forall nh s1,
             Snake.move (snake g2) = Ok (nh, s1) ->
             Snake.check_self_collision s1 = Ok true).
  { intros nh s1 Hmove. apply move_inv in Hmove.
    destruct Hmove as (head' & tail' & Hb' & -> & _ & _ & Hs1).
    rewrite Hsnake, Hb2, Hb in Hb'. injection Hb' as <- <-.
    rewrite Hsnake, Hd2, Hp2, Hb2, Hb, (opposite_value _ _ Hopp) in Hs1.
    cbn [fst snd] in Hs1.
    unfold Snake.check_self_collision. rewrite Hs1. f_equal.
    apply mem_In.
    replace (fst head + - fst (value (Snake.direction (snake g))))
      with (fst head - fst (value (Snake.direction (snake g)))) by lia.
    replace (snd head + - snd (value (Snake.direction (snake g))))
      with (snd head - snd (value (Snake.direction (snake g)))) by lia.
    destruct (Snake.grow_pending (snake g)) eqn:Hg.
    - right; left; reflexivity.
    - destruct Hlong as [Hrest | Hg']; [|discriminate Hg'].
      destruct rest as [|c rest]; [contradiction|].
      right; left; reflexivity. }
  apply update_path in Hu. unfold is_game_over.
  destruct Hu as [ Ht | | | | ? ? ? ? _ Hm _ _ _ Hs
                 | ? ? ? ? ? ? _ Hm _ _ _ Hs
                 | ? ? ? ? ? ? ? ? _ Hm _ _ _ Hs ];
    try (split; reflexivity);
    try (apply Hbite in Hm; congruence).
  unfold Tick.terminal in *. cbn in Ht. congruence.
Qed.

Lemma seeded_ignores_generator level w h r1 r2 :
  level = 7 \/ 10 <= level ->
  LevelManager.get_level_obstacles level w h r1
  = LevelManager.get_level_obstacles level w h r2.
Proof.
  intros Hl. unfold LevelManager.get_level_obstacles.
  destruct Hl as [-> | Hl]; [reflexivity|].
  repeat match goal with
         | |- context [level =? ?k] =>
             destruct (Z.eqb_spec level k) as [?|_]; [lia|]
         end.
  destruct (level >=? 10) eqn:Hge; [reflexivity | lia].
Qed.

(** X13 — at level 7 and from level 10 on, what [update] returns and what
    it does to the game does not depend on the state of the shared
    generator: the obstacle query reseeds it before the food is placed. *)
Theorem seeded_levels_fix_the_food fuel g r1 r2 :
  level g = 7 \/ 10 <= level g ->
  forget (update fuel g r1) = forget (update fuel g r2).
Proof.
  intros Hl. unfold update.
  destruct (game_over g || game_won g); [reflexivity|].
  unfold bind, lift.
  destruct (Snake.move (snake g)) as [[new_head s1]| |]; try reflexivity.
  cbv beta iota.
  match goal with
  | |- context [if ?c then _ else _] => destruct c; [reflexivity|]
  end.
  cbn [level width height set_snake].
  rewrite (seeded_ignores_generator _ _ _ r1 r2 Hl). reflexivity.
Qed.

(** X14 — [update] never turns the snake and never touches the board
    size or the two constants; a call that eats no food leaves the
    food, the score, the level and the food counter as they were. *)
Theorem update_frame fuel g r ok g' r' :
  update fuel g r = Ok ((ok, g'), r') ->
  Snake.direction (snake g') = Snake.direction (snake g)
  /\ width g' = width g /\ height g' = height g
  /\ foods_per_level g' = foods_per_level g /\ max_level g' = max_level g
  /\ (ok && Play.food_ahead g = false ->
      food g' = food g /\ score g' = score g /\ level g' = level g
      /\ foods_eaten g' = foods_eaten g /\ is_game_won g' = is_game_won g).
Proof.
  intros Hu. apply update_path in Hu.
  destruct Hu as [ Ht | ? ? _ Hm _ | ? ? ? ? _ Hm _ _ _ | ? ? ? ? _ Hm _ _ _ _
                 | ? ? ? ? _ Hm _ _ _ _ Hf
                 | ? ? ? ? ? ? _ Hm _ _ _ _ Hf _ _
                 | ? ? ? ? ? ? ? ? _ Hm _ _ _ _ Hf _ _ Ha ];
    try (apply move_inv in Hm;
         destruct Hm as (? & ? & _ & _ & Hdir & _));
    try rewrite Hf; cbn [andb]; unfold is_game_won;
    try (cbn; repeat split; (assumption || discriminate || reflexivity)).
  apply advance_inv in Ha.
  destruct Ha as [(_ & -> & _) | (_ & ? & ? & ? & _ & _ & ->)];
    cbn; repeat split; (assumption || discriminate || reflexivity).
Qed.
End TurnFacts.

Section ConstructorFacts.
Context {R : PyRandom} {T : PyTrig}.

(** X15 — when [Food(width, height, obstacles)] returns, the food lies in
    the interior, off every obstacle, and the object keeps the board
    size and the obstacle list it was given. *)
Theorem food_constructor_places_food fuel w h obstacles r f r' :
  Food.__init__ fuel w h obstacles r = Ok (f, r') ->
  Food.width f = w /\ Food.height f = h /\ Food.obstacles f = obstacles
  /\ 1 <= fst (Food.get_position f) <= w - 2
  /\ 1 <= snd (Food.get_position f) <= h - 2
  /\ ~ In (Food.get_position f) obstacles.
Proof.
  unfold Food.__init__. intros H. unfold bind at 1 in H.
  destruct (Food._generate_position fuel w h obstacles r) as [[p r1]| |] eqn:Hg;
    try discriminate H.
  unfold ret in H. injection H as <- _.
  apply generate_position_ok in Hg. cbn. tauto.
Qed.

(** X16 — [GameState(width, height)] raises [ValueError] when the board is
    narrower or lower than 3, and on the 3 x 3 board, whose only interior
    cell is under the snake, it never returns. *)
Theorem constructor_rejects_tiny_boards fuel w h r :
  (w < 3 \/ h < 3 ->
   GameState.__init__ (S fuel) w h r = Raise ValueError)
  /\ GameState.__init__ fuel 3 3 r = Diverge.
Proof.
  split.
  - intros Hsmall.
    assert (Hgen : Food._generate_position (S fuel) w h [] r = Raise ValueError).
    { cbn [Food._generate_position]. unfold bind at 1.
      destruct (Z_lt_le_dec w 3) as [Hw|Hw].
      - rewrite randint_raises by lia. reflexivity.
      - destruct (randint_total 1 (w - 2) r) as (x & r1 & -> & _); [lia|].
        unfold bind at 1. rewrite randint_raises by lia. reflexivity. }
    unfold GameState.__init__, Food.__init__, bind.
    change (LevelManager.get_level_obstacles 1 w h r) with (Ok (@nil coord, r)).
    cbv beta iota. rewrite Hgen. reflexivity.
  - unfold GameState.__init__, Food.__init__, bind.
    change (LevelManager.get_level_obstacles 1 3 3 r) with (Ok (@nil coord, r)).
    cbv beta iota.
    destruct (Food._generate_position fuel 3 3 [] r) as [[p r1]| |] eqn:Hg;
      try reflexivity.
    + cbn [ret Snake.get_body Snake.__init__ Snake.body].
      rewrite regenerate_exhausted; [reflexivity | cbn; lia | cbn; lia |].
      cbn. intros x y Hx Hy. left. left. f_equal; lia.
    + exfalso. clear - Hg. revert r Hg.
      induction fuel as [|fuel IH]; intros r Hg; [discriminate Hg|].
      cbn [Food._generate_position] in Hg. unfold bind at 1 in Hg.
      destruct (randint_total 1 (3 - 2) r) as (x & r1 & Hx & _); [lia|].
      rewrite Hx in Hg. unfold bind at 1 in Hg.
      destruct (randint_total 1 (3 - 2) r1) as (y & r2 & Hy & _); [lia|].
      rewrite Hy in Hg. cbn in Hg. discriminate Hg.
Qed.
End ConstructorFacts.

(** ** Descriptions and screens *)

(** X17 — the description tells the level: two levels with the same
    description are the same level. *)
Theorem description_identifies_level (a b : Z) :
  Levels.get_level_description a = Levels.get_level_description b -> a = b.
Proof.
  unfold Levels.get_level_description.
  repeat match goal with
         | |- context [a =? ?k] => destruct (Z.eqb_spec a k)
         end;
    repeat match goal with
           | |- context [b =? ?k] => destruct (Z.eqb_spec b k)
           end;
    intros H; try congruence; try (cbn in H; discriminate H).
  cbn in H. injection H as H.
  apply (cut_at_unique " "%char) in H; try (apply str_digits_only; now left).
  destruct H as [H _]. now apply str_inj.
Qed.

Lemma nth_map_default {A B : Type} (f : A -> B) (l : list A) (i : nat)
    (d : B) (d' : A) :
  (i < List.length l)%nat -> nth i (map f l) d = f (nth i l d').
Proof.
  revert i. induction l as [|a l IH]; intros i Hi; cbn [List.length] in Hi;
    [lia|].
  destruct i as [|i]; [reflexivity|]. cbn [map nth]. apply IH. lia.
Qed.

Lemma nth_py_range (a b : Z) (i : nat) (d : Z) :
  Z.of_nat i < b - a -> nth i (py_range a b) d = a + Z.of_nat i.
Proof.
  intros Hi. unfold py_range.
  rewrite (nth_map_default _ _ _ _ 0%nat) by (rewrite length_seq; lia).
  rewrite seq_nth by lia. reflexivity.
Qed.

Lemma string_app_assoc (a b c : string) :
  ((a ++ b) ++ c = a ++ (b ++ c))%string.
Proof. induction a as [|x a IH]; cbn; [reflexivity|]. now rewrite IH. Qed.

Lemma string_app_nil_r (a : string) : (a ++ "" = a)%string.
Proof. induction a as [|x a IH]; cbn; [reflexivity|]. now rewrite IH. Qed.

Lemma concat_empty_cons (x : string) (l : list string) :
  String.concat "" (x :: l) = (x ++ String.concat "" l)%string.
Proof.
  destruct l as [|y l]; cbn [String.concat].
  - now rewrite string_app_nil_r.
  - reflexivity.
Qed.

Lemma row_loop {A : Type} (f : A -> string) (xs : list A) (init : string) :
  for_each xs (fun row x => (row ++ f x)%string) init
  = (init ++ String.concat "" (map f xs))%string.
Proof.
  unfold for_each. revert init.
  induction xs as [|x xs IH]; intros init; cbn [fold_left map].
  - cbn. now rewrite string_app_nil_r.
  - rewrite IH, concat_empty_cons. apply string_app_assoc.
Qed.

Lemma lines_loop {A B : Type} (f : A -> B) (ys : list A) (init : list B) :
  for_each ys (fun printed y => printed ++ [f y]) init = init ++ map f ys.
Proof.
  unfold for_each. revert init.
  induction ys as [|y ys IH]; intros init; cbn [fold_left map].
  - now rewrite app_nil_r.
  - rewrite IH, <- app_assoc. reflexivity.
Qed.


Lemma string_app_inv_head (a x y : string) :
  (a ++ x = a ++ y)%string -> x = y.
Proof.
  induction a as [|c a IH]; cbn; [auto|]. intros [= H]. auto.
Qed.

(** No text of a cell is the beginning of another: a printed row can be
    read back cell by cell. *)
Lemma cell_texts_prefix_free (a b x y : string) :
  In a GameDisplay.cell_texts -> In b GameDisplay.cell_texts ->
  (a ++ x = b ++ y)%string -> a = b.
Proof.
  unfold GameDisplay.cell_texts. cbn [In]. intros Ha Hb.
  repeat match goal with
         | H : _ \/ _ |- _ => destruct H as [H | H]
         | H : False |- _ => destruct H
         end; subst a b; intros H; try reflexivity;
    cbv in H; discriminate H.
Qed.

Lemma cells_read_back (l1 l2 : list string) (t1 t2 : string) :
  List.length l1 = List.length l2 ->
  (forall c, In c l1 -> In c GameDisplay.cell_texts) ->
  (forall c, In c l2 -> In c GameDisplay.cell_texts) ->
  (String.concat "" l1 ++ t1 = String.concat "" l2 ++ t2)%string ->
  l1 = l2.
Proof.
  revert l2. induction l1 as [|a l1 IH]; intros [|b l2] Hlen H1 H2 H;
    try discriminate Hlen; [reflexivity|].
  rewrite !concat_empty_cons, !string_app_assoc in H.
  assert (Hab : a = b).
  { apply (cell_texts_prefix_free _ _ _ _ (H1 a (or_introl eq_refl))
             (H2 b (or_introl eq_refl)) H). }
  subst b. apply string_app_inv_head in H. f_equal.
  apply IH; auto.
  - intros c Hc. apply H1. now right.
  - intros c Hc. apply H2. now right.
Qed.

Lemma field_text_read_back (w : Z) (grid1 grid2 : list (list string)) :
  (forall row, In row grid1 ->
     Z.of_nat (List.length row) = w /\ forall c, In c row -> In c GameDisplay.cell_texts) ->
  (forall row, In row grid2 ->
     Z.of_nat (List.length row) = w /\ forall c, In c row -> In c GameDisplay.cell_texts) ->
  GameDisplay.field_text w grid1 = GameDisplay.field_text w grid2 ->
  grid1 = grid2.
Proof.
  unfold GameDisplay.field_text. cbn [app]. intros H1 H2 [= H].
  apply app_inv_tail in H. revert grid2 H2 H.
  induction grid1 as [|r1 grid1 IH]; intros [|r2 grid2] H2 H;
    try discriminate H; [reflexivity|].
  cbn [map] in H. injection H as Hrow Hrest.
  destruct (H1 r1 (or_introl eq_refl)) as [Hl1 Hc1].
  destruct (H2 r2 (or_introl eq_refl)) as [Hl2 Hc2].
  f_equal.
  - apply (cells_read_back _ _ "|" "|"); auto. lia.
  - apply IH; auto.
    + intros row Hr. apply H1. now right.
    + intros row Hr. apply H2. now right.
Qed.

Section DisplayFacts.
Context {R : PyRandom} {T : PyTrig}.
Import GameState GameDisplay.

Ltac lengths :=
  unfold py_range;
  repeat first [ progress cbn [List.length app]
               | rewrite length_app | rewrite length_map
               | rewrite repeat_length | rewrite length_seq ];
  lia.

(** What [_render_field] prints, cell by cell. *)
Lemma render_field_grid g r head obstacles r1 :
  Snake.get_head (snake g) = Ok head ->
  get_obstacles g r = Ok (obstacles, r1) ->
  _render_field g r
  = Ok (field_text (width g)
          (map (fun y => map (fun x => char_at g head obstacles x y)
                           (py_range 0 (width g)))
               (py_range 0 (height g))), r1).
Proof.
  intros Hhead Hobs. unfold _render_field, bind, lift.
  rewrite Hhead, Hobs. unfold ret, field_text. cbv zeta.
  rewrite (lines_loop
             (fun y =>
                (for_each (py_range 0 (width g))
                   (fun row x => (row ++ char_at g head obstacles x y)%string)
                   "|" ++ "|")%string)).
  cbn [app]. rewrite map_map.
  rewrite (map_ext _
             (fun y =>
                row_text (map (fun x => char_at g head obstacles x y)
                            (py_range 0 (width g))))); [reflexivity|].
  intros y. rewrite (row_loop (fun x => char_at g head obstacles x y)).
  unfold row_text. apply string_app_assoc.
Qed.

Lemma char_at_text g head obstacles x y :
  In (char_at g head obstacles x y) cell_texts.
Proof.
  unfold char_at, cell_texts.
  repeat match goal with
         | |- context [if ?b then _ else _] => destruct b
         end; cbn [In]; tauto.
Qed.

Lemma cell_at_grid (f : Z -> Z -> string) w h x y :
  0 <= x < w -> 0 <= y < h ->
  cell_at (map (fun y => map (fun x => f x y) (py_range 0 w)) (py_range 0 h))
    (x, y) = f x y.
Proof.
  intros Hx Hy. unfold cell_at. cbn [fst snd].
  rewrite (nth_map_default _ _ _ _ 0)
    by (unfold py_range; rewrite length_map, length_seq; lia).
  rewrite (nth_map_default _ _ _ _ 0)
    by (unfold py_range; rewrite length_map, length_seq; lia).
  rewrite !nth_py_range by lia.
  replace (0 + Z.of_nat (Z.to_nat x)) with x by lia.
  replace (0 + Z.of_nat (Z.to_nat y)) with y by lia.
  reflexivity.
Qed.

(** X18 — in every state of a game [_render_field] returns; between
    the two border lines it prints [height] lines, each a bar, the texts
    of [width] cells and a bar, every cell holding one of the six texts
    of the display with its colour escapes, and the printed lines can be
    read back into the cells in one way only; the food's cell holds the
    red food character, and while the game is not over the head's cell
    holds the green head character and every other cell of the snake
    the green body character. *)
Theorem field_shows_food_and_snake fuel w h acts r0 g n r r1 :
  Play.play fuel w h acts r0 = Ok ((g, n), r) ->
  exists grid r2,
    _render_field g r1 = Ok (field_text w grid, r2)
    /\ Z.of_nat (List.length grid) = h
    /\ (forall row, In row grid ->
        Z.of_nat (List.length row) = w
        /\ forall c, In c row -> In c cell_texts)
    /\ (forall grid',
          (forall row, In row grid' ->
             Z.of_nat (List.length row) = w
             /\ forall c, In c row -> In c cell_texts) ->
          field_text w grid' = field_text w grid -> grid' = grid)
    /\ cell_at grid (Food.get_position (food g)) = _colored_char FOOD RED
    /\ (is_game_over g = false ->
        forall head tail,
          Snake.get_body (snake g) = head :: tail ->
          cell_at grid head = _colored_char SNAKE_HEAD GREEN
          /\ forall c, In c tail ->
               cell_at grid c = _colored_char SNAKE_BODY GREEN).
Proof.
  intros H. apply play_sound in H.
  destruct (sound_body _ _ _ _ H) as (head & tail & Hb & Hin & Hnd & Hrun & _).
  destruct (sound_size _ _ _ _ H) as [Hw3 Hh3].
  pose proof (sound_width _ _ _ _ H) as Hw.
  pose proof (sound_height _ _ _ _ H) as Hh.
  destruct (sound_food _ _ _ _ H) as (Hfx & Hfy & Hfb & _).
  destruct (sound_obstacles _ _ _ _ H r1) as [r2 Hobs].
  assert (Hhead : Snake.get_head (snake g) = Ok head)
    by (unfold Snake.get_head; rewrite Hb; reflexivity).
  assert (Hobs' : get_obstacles g r1 = Ok (Food.obstacles (food g), r2))
    by (unfold get_obstacles; rewrite Hw, Hh; exact Hobs).
  pose proof (render_field_grid _ _ _ _ _ Hhead Hobs') as Hrender.
  rewrite Hw, Hh in Hrender.
  eexists. exists r2. split; [exact Hrender|].
  split; [unfold py_range; rewrite !length_map, length_seq; lia|].
  match goal with
  | |- (forall row, In row ?grid -> _) /\ _ =>
      assert (Hcells : forall row, In row grid ->
                Z.of_nat (List.length row) = w
                /\ forall c, In c row -> In c cell_texts)
  end.
  { intros row Hrow. apply in_map_iff in Hrow. destruct Hrow as (y & <- & _).
    split; [unfold py_range; rewrite !length_map, length_seq; lia|].
    intros c Hc. apply in_map_iff in Hc. destruct Hc as (x & <- & _).
    apply char_at_text. }
  split; [exact Hcells|].
  split; [intros grid' Hcells' Heq;
          exact (field_text_read_back w _ _ Hcells' Hcells Heq)|].
  assert (Hcell : forall x y, 0 < x < w - 1 -> 0 < y < h - 1 ->
            char_at g head (Food.obstacles (food g)) x y
            = if coord_eqb (x, y) head then _colored_char SNAKE_HEAD GREEN
              else if mem (x, y) tail then _colored_char SNAKE_BODY GREEN
              else if coord_eqb (x, y) (Food.get_position (food g))
              then _colored_char FOOD RED
              else if mem (x, y) (Food.obstacles (food g))
              then _colored_char OBSTACLE BLUE
              else EMPTY).
  { intros x y Hx Hy. unfold char_at.
    rewrite Hw, Hh. unfold Snake.get_body. rewrite Hb. cbn [tl].
    destruct (Z.eqb_spec x 0); [lia|]. destruct (Z.eqb_spec x (w - 1)); [lia|].
    destruct (Z.eqb_spec y 0); [lia|]. destruct (Z.eqb_spec y (h - 1)); [lia|].
    reflexivity. }
  unfold Food.get_position in *. unfold Snake.get_body. rewrite Hb in *.
  split.
  - destruct (Food.position (food g)) as [fx fy] eqn:Hpos. cbn [fst snd] in *.
    rewrite cell_at_grid by lia. rewrite Hcell by lia.
    destruct (coord_eqb (fx, fy) head) eqn:Hfh.
    + apply coord_eqb_eq in Hfh. exfalso. apply Hfb. now left.
    + destruct (mem (fx, fy) tail) eqn:Hft.
      * apply mem_In in Hft. exfalso. apply Hfb. now right.
      * assert (Hrefl : coord_eqb (fx, fy) (fx, fy) = true)
          by now apply coord_eqb_eq.
        rewrite Hrefl. reflexivity.
  - unfold is_game_over. intros Hover head' tail' [= <- <-].
    destruct (Hrun Hover) as [[Hhx Hhy] Hfresh]. split.
    + destruct head as [hx hy]. cbn [fst snd] in *.
      rewrite cell_at_grid by lia. rewrite Hcell by lia.
      assert (Hrefl : coord_eqb (hx, hy) (hx, hy) = true)
        by now apply coord_eqb_eq.
      rewrite Hrefl. reflexivity.
    + intros [cx cy] Hc. destruct (Hin _ Hc) as [Hcx Hcy]. cbn [fst snd] in *.
      rewrite cell_at_grid by lia. rewrite Hcell by lia.
      destruct (coord_eqb (cx, cy) head) eqn:Hch.
      * apply coord_eqb_eq in Hch. subst head. contradiction.
      * apply mem_In in Hc. rewrite Hc. reflexivity.
Qed.
(** X19 — the final screen of a game reports the foods really eaten and
    the score they earned, and congratulates exactly after 50 foods. *)
Theorem game_over_screen_totals fuel w h acts r0 g n r :
  Play.play fuel w h acts r0 = Ok ((g, n), r) ->
  exists lines,
    show_game_over g = Ok lines
    /\ In ("Total Food Eaten: " ++ str (Z.of_nat n))%string lines
    /\ In ("Final Score: "
            ++ str (10 * Z.of_nat n + 50 * (level g - 1)))%string lines
    /\ (In "🎉 CONGRATULATIONS! 🎉"%string lines <-> n = 50%nat).
Proof.
  intros H. apply play_sound in H.
  destruct (sound_body _ _ _ _ H) as (head & tail & Hb & _).
  pose proof (sound_eaten _ _ _ _ H) as Heat.
  pose proof (sound_score _ _ _ _ H) as Hsc.
  pose proof (sound_threshold _ _ _ _ H) as Hfpl.
  destruct (sound_foods_eaten _ _ _ _ H) as [_ Hfe].
  pose proof (sound_level _ _ _ _ H) as Hlev.
  assert (Htotal : foods_eaten g + (level g - 1) * foods_per_level g
                   = Z.of_nat n) by (rewrite Hfpl; lia).
  unfold show_game_over, is_game_won, Snake.check_self_collision.
  rewrite Hb, Htotal, Hsc.
  destruct (game_won g).
  - eexists. split; [reflexivity|]. cbn [app In].
    split; [tauto|]. split; [tauto|]. split; [lia | tauto].
  - assert (Hn : n <> 50%nat) by lia.
    destruct (mem head tail); eexists; (split; [reflexivity|]); cbn [app In];
      (split; [tauto|]); (split; [tauto|]);
      (split; [|intros; contradiction]); intros Hin; exfalso;
      destruct (level g >? 1); cbn in Hin;
      repeat (destruct Hin as [Hin | Hin]; [discriminate Hin|]);
      exact Hin.
Qed.
(** X20 — the test [foods_eaten >= foods_per_level] that the game loop
    makes after a tick to show the level-complete screen holds in no
    state but the won one, where the level is still 10 and the loop's
    test [level > get_max_level()] fails; the screen then announces
    level 9 as completed and level 10 as the next one. *)
Theorem level_complete_screen_only_at_the_win fuel w h acts r0 g n r :
  Play.play fuel w h acts r0 = Ok ((g, n), r) ->
  (foods_per_level g <= foods_eaten g <-> is_game_won g = true)
  /\ (level g >? LevelManager.get_max_level) = false
  /\ (foods_per_level g <= foods_eaten g ->
      show_level_complete g
      = ["🐍 SNAKE GAME 🐍"; times "=" 50; "";
         "🎉 LEVEL COMPLETE! 🎉"; "";
         "Level 9 completed!"; "Score: 950"; "Bonus: +50 points"; "";
         "Next: Level 10"; "Master Challenge - Ultimate test of skill";
         ""; "Press any key to continue..."; ""; times "=" 50]%string).
Proof.
  intros H. apply play_sound in H. unfold is_game_won.
  pose proof (sound_threshold _ _ _ _ H) as Hfpl.
  pose proof (sound_level _ _ _ _ H) as Hlev.
  pose proof (sound_score _ _ _ _ H) as Hsc.
  pose proof (sound_eaten _ _ _ _ H) as Heat.
  destruct (sound_foods_eaten _ _ _ _ H) as [_ Hfe].
  unfold LevelManager.get_max_level. rewrite Hfpl.
  split; [|split; [lia|]].
  - destruct (game_won g); split; intros; try lia; try discriminate; auto.
  - intros Hfull. destruct (game_won g); [|lia].
    destruct Hfe as [Hfe Hl]. unfold show_level_complete.
    assert (Hs : score g = 950) by lia. rewrite Hl, Hs. reflexivity.
Qed.
End DisplayFacts.

(** * Further sample runs *)

Section FurtherSamples.
Import GameState Scripted.

Lemma sample_game_runs :
  Play.play 6 30 20 Scripted.game Scripted.tape_start
  = Ok ((Scripted.after_win, 50%nat), []).
Proof. vm_compute. reflexivity. Qed.

Lemma crash_game_runs :
  Play.play 1 30 20 (repeat Play.Tick 14) []
  = Ok ((Scripted.crashed, 0%nat), []).
Proof. vm_compute. reflexivity. Qed.

Lemma counters_follow_foods_sample :
  Play.play 6 30 20 Scripted.game Scripted.tape_start
  = Ok ((Scripted.after_win, 50%nat), [])
  /\ (level Scripted.after_win = Z.min 10 (Z.of_nat 50 / 5 + 1)
      /\ foods_eaten Scripted.after_win
         = Z.of_nat 50 - 5 * (level Scripted.after_win - 1)
      /\ score Scripted.after_win
         = 10 * Z.of_nat 50 + 50 * (level Scripted.after_win - 1)
      /\ (50 <= 50)%nat).
Proof.
  split; [exact sample_game_runs|].
  exact (counters_follow_foods (R := random) _ _ _ _ _ _ _ _ sample_game_runs).
Defined.

Lemma won_iff_fifty_foods_sample :
  Play.play 6 30 20 Scripted.game Scripted.tape_start
  = Ok ((Scripted.after_win, 50%nat), [])
  /\ ((is_game_won Scripted.after_win = true <-> 50%nat = 50%nat)
      /\ (is_game_won Scripted.after_win = true ->
          level Scripted.after_win = LevelManager.get_max_level
          /\ Levels.is_final_level (level Scripted.after_win) = true)
      /\ is_game_over Scripted.after_win && is_game_won Scripted.after_win
         = false).
Proof.
  split; [exact sample_game_runs|].
  exact (won_iff_fifty_foods (R := random) _ _ _ _ _ _ _ _ sample_game_runs).
Defined.

Lemma snake_length_counts_foods_sample :
  Play.play 6 30 20 Scripted.game Scripted.tape_start
  = Ok ((Scripted.after_win, 50%nat), [])
  /\ (List.length (Snake.get_body (snake Scripted.after_win))
      + (if Snake.grow_pending (snake Scripted.after_win) then 1 else 0)
      = 1 + 50)%nat.
Proof.
  split; [exact sample_game_runs|].
  exact (snake_length_counts_foods (R := random) _ _ _ _ _ _ _ _
           sample_game_runs).
Defined.

Lemma running_snake_is_simple_sample :
  Play.play 6 30 20 Scripted.game Scripted.tape_start
  = Ok ((Scripted.after_win, 50%nat), [])
  /\ is_game_over Scripted.after_win = false
  /\ (NoDup (Snake.get_body (snake Scripted.after_win))
      /\ inside 30 20 (Snake.get_body (snake Scripted.after_win))
      /\ Z.of_nat (List.length (Snake.get_body (snake Scripted.after_win)))
         <= (30 - 2) * (20 - 2)).
Proof.
  split; [exact sample_game_runs|]. split; [reflexivity|].
  exact (proj2 (running_snake_is_simple (R := random) _ _ _ _ _ _ _ _
                  sample_game_runs) eq_refl).
Defined.

Lemma food_on_free_cell_sample :
  Play.play 6 30 20 Scripted.game Scripted.tape_start
  = Ok ((Scripted.after_win, 50%nat), [])
  /\ (1 <= fst (Food.get_position (food Scripted.after_win)) <= 30 - 2
      /\ 1 <= snd (Food.get_position (food Scripted.after_win)) <= 20 - 2
      /\ ~ In (Food.get_position (food Scripted.after_win))
             (Snake.get_body (snake Scripted.after_win))
      /\ forall r1, exists obstacles r2,
           get_obstacles Scripted.after_win r1 = Ok (obstacles, r2)
           /\ ~ In (Food.get_position (food Scripted.after_win)) obstacles).
Proof.
  split; [exact sample_game_runs|].
  exact (food_on_free_cell (R := random) _ _ _ _ _ _ _ _ sample_game_runs).
Defined.

Lemma food_obstacles_in_sync_sample :
  Play.play 6 30 20 Scripted.game Scripted.tape_start
  = Ok ((Scripted.after_win, 50%nat), [])
  /\ forall r1, exists r2,
       get_obstacles Scripted.after_win r1
       = Ok (Food.obstacles (food Scripted.after_win), r2).
Proof.
  split; [exact sample_game_runs|].
  exact (food_obstacles_in_sync (R := random) _ _ _ _ _ _ _ _
           sample_game_runs).
Defined.

Lemma game_over_has_a_cause_sample :
  Play.play 1 30 20 (repeat Play.Tick 14) []
  = Ok ((Scripted.crashed, 0%nat), [])
  /\ is_game_over Scripted.crashed = true
  /\ exists head tail,
       Snake.get_body (snake Scripted.crashed) = head :: tail
       /\ (Step.on_border 30 20 head = true
           \/ (forall r1, exists obstacles r2,
                 get_obstacles Scripted.crashed r1 = Ok (obstacles, r2)
                 /\ In head obstacles)
           \/ Snake.check_self_collision (snake Scripted.crashed) = Ok true).
Proof.
  split; [exact crash_game_runs|]. split; [reflexivity|].
  exact (game_over_has_a_cause (R := random) _ _ _ _ _ _ _ _
           crash_game_runs eq_refl).
Defined.

Lemma board_bounds_the_game_sample :
  Play.play 6 30 20 Scripted.game Scripted.tape_start
  = Ok ((Scripted.after_win, 50%nat), [])
  /\ (3 <= 30 /\ 3 <= 20
      /\ Z.of_nat 50 <= (30 - 2) * (20 - 2) + 1
      /\ (7 <= level Scripted.after_win -> 9 <= 30 /\ 9 <= 20)).
Proof.
  split; [exact sample_game_runs|].
  exact (board_bounds_the_game (R := random) _ _ _ _ _ _ _ _
           sample_game_runs).
Defined.

Lemma obstacles_raise_on_small_boards_sample :
  ((7 = 7 /\ 20 <= 8 * 20 /\ (8 < 9 \/ 20 < 9))
   \/ (10 <= 7 /\ 15 <= 8 * 20 /\ (8 < 7 \/ 20 < 7)))
  /\ LevelManager.get_level_obstacles 7 8 20 Scripted.tape_start
     = Raise ValueError.
Proof.
  assert (Hsmall : (7 = 7 /\ 20 <= 8 * 20 /\ (8 < 9 \/ 20 < 9))
                   \/ (10 <= 7 /\ 15 <= 8 * 20 /\ (8 < 7 \/ 20 < 7)))
    by (left; lia).
  split; [exact Hsmall|].
  exact (proj1 (obstacles_raise_on_small_boards (R := random) 7 8 20
                  Scripted.tape_start) Hsmall).
Defined.

Lemma obstacles_inside_board_sample :
  5 <= 30 /\ 5 <= 20
  /\ LevelManager.get_level_obstacles 3 30 20 Scripted.tape_start
     = Ok (LevelManager.level3 30 20, Scripted.tape_start)
  /\ inside 30 20 (LevelManager.level3 30 20).
Proof.
  assert (Hrun : LevelManager.get_level_obstacles 3 30 20 Scripted.tape_start
                 = Ok (LevelManager.level3 30 20, Scripted.tape_start))
    by reflexivity.
  split; [lia|]. split; [lia|]. split; [exact Hrun|].
  refine (obstacles_inside_board (R := random) (T := trig) 3 30 20
            Scripted.tape_start _ Scripted.tape_start _ _ _ _ Hrun); lia.
Defined.

Lemma single_turn_keeps_off_the_neck_sample :
  Snake.body (snake three_cells) = [(10, 5); (9, 5); (8, 5)]
  /\ Snake.move (snake (change_snake_direction three_cells LEFT))
     = Ok ((11, 5),
           {| Snake.body := [(11, 5); (10, 5); (9, 5)];
              Snake.direction := RIGHT; Snake.grow_pending := false |})
  /\ (11, 5) <> (9, 5).
Proof.
  split; [reflexivity|]. split; [reflexivity|].
  exact (single_turn_keeps_off_the_neck three_cells LEFT (10, 5) [(8, 5)]
           (11, 5) _ eq_refl eq_refl).
Defined.

Lemma two_turns_reverse_into_the_neck_sample :
  update 1 (change_snake_direction (change_snake_direction three_cells UP) LEFT)
    []
  = Ok ((false,
         set_game_over
           (set_snake three_cells
              {| Snake.body := [(9, 5); (10, 5); (9, 5)];
                 Snake.direction := LEFT; Snake.grow_pending := false |})
           true), [])
  /\ Snake.direction
       (snake (change_snake_direction
                 (change_snake_direction three_cells UP) LEFT)) = LEFT
  /\ false = false
  /\ is_game_over
       (set_game_over
          (set_snake three_cells
             {| Snake.body := [(9, 5); (10, 5); (9, 5)];
                Snake.direction := LEFT; Snake.grow_pending := false |})
          true) = true.
Proof.
  assert (Hu : update 1
                 (change_snake_direction
                    (change_snake_direction three_cells UP) LEFT) []
               = Ok ((false,
                      set_game_over
                        (set_snake three_cells
                           {| Snake.body := [(9, 5); (10, 5); (9, 5)];
                              Snake.direction := LEFT;
                              Snake.grow_pending := false |})
                        true), []))
    by (vm_compute; reflexivity).
  split; [exact Hu|].
  refine (two_turns_reverse_into_the_neck (R := random) 1 three_cells UP LEFT
            (10, 5) [(8, 5)] [] _ _ _ eq_refl eq_refl _ eq_refl eq_refl
            eq_refl Hu).
  left. discriminate.
Defined.

Lemma seeded_levels_fix_the_food_sample :
  (level Scripted.before_win = 7 \/ 10 <= level Scripted.before_win)
  /\ forget (update 6 Scripted.before_win [2; 2])
     = forget (update 6 Scripted.before_win Scripted.tape_start).
Proof.
  assert (Hl : level Scripted.before_win = 7
               \/ 10 <= level Scripted.before_win)
    by (right; vm_compute; discriminate).
  split; [exact Hl|].
  exact (seeded_levels_fix_the_food (R := random) 6 Scripted.before_win
           [2; 2] Scripted.tape_start Hl).
Defined.

Lemma update_frame_sample :
  update 1 three_cells []
  = Ok ((true,
         set_snake three_cells
           {| Snake.body := [(11, 5); (10, 5); (9, 5)];
              Snake.direction := RIGHT; Snake.grow_pending := false |}), [])
  /\ true && Play.food_ahead three_cells = false
  /\ food (set_snake three_cells
             {| Snake.body := [(11, 5); (10, 5); (9, 5)];
                Snake.direction := RIGHT; Snake.grow_pending := false |})
     = food three_cells.
Proof.
  assert (Hu : update 1 three_cells []
               = Ok ((true,
                      set_snake three_cells
                        {| Snake.body := [(11, 5); (10, 5); (9, 5)];
                           Snake.direction := RIGHT;
                           Snake.grow_pending := false |}), []))
    by (vm_compute; reflexivity).
  split; [exact Hu|]. split; [reflexivity|].
  exact (proj1 (proj2 (proj2 (proj2 (proj2 (proj2
           (update_frame (R := random) 1 three_cells [] _ _ _ Hu)))))
           eq_refl)).
Defined.

Lemma food_constructor_places_food_sample :
  Food.__init__ 1 30 20 [(16, 10)] [7; 3]
  = Ok ({| Food.width := 30; Food.height := 20;
           Food.obstacles := [(16, 10)]; Food.position := (7, 3) |}, [])
  /\ 1 <= 7 <= 30 - 2 /\ 1 <= 3 <= 20 - 2 /\ ~ In (7, 3) [(16, 10)].
Proof.
  assert (Hf : Food.__init__ 1 30 20 [(16, 10)] [7; 3]
               = Ok ({| Food.width := 30; Food.height := 20;
                        Food.obstacles := [(16, 10)];
                        Food.position := (7, 3) |}, []))
    by reflexivity.
  split; [exact Hf|].
  exact (proj2 (proj2 (proj2
           (food_constructor_places_food (R := random) 1 30 20 _ _ _ _ Hf)))).
Defined.

Lemma constructor_rejects_tiny_boards_sample :
  (2 < 3 \/ 20 < 3)
  /\ GameState.__init__ 1 2 20 Scripted.tape_start = Raise ValueError
  /\ GameState.__init__ 5 3 3 Scripted.tape_start = Diverge.
Proof.
  assert (Hs : 2 < 3 \/ 20 < 3) by (left; lia).
  split; [exact Hs|]. split.
  - exact (proj1 (constructor_rejects_tiny_boards (R := random) (T := trig)
                    0 2 20 Scripted.tape_start) Hs).
  - exact (proj2 (constructor_rejects_tiny_boards (R := random) (T := trig)
                    5 2 20 Scripted.tape_start)).
Defined.

Lemma description_identifies_level_sample :
  Levels.get_level_description 12 = "Expert Level 12 - Maximum difficulty!"%string
  /\ Levels.get_level_description (7 + 5) = Levels.get_level_description 12
  /\ 7 + 5 = 12.
Proof.
  split; [reflexivity|]. split; [reflexivity|].
  exact (description_identifies_level (7 + 5) 12 eq_refl).
Defined.

Lemma field_shows_food_and_snake_sample :
  Play.play 6 30 20 Scripted.game Scripted.tape_start
  = Ok ((Scripted.after_win, 50%nat), [])
  /\ exists grid r2,
       GameDisplay._render_field Scripted.after_win []
       = Ok (GameDisplay.field_text 30 grid, r2)
       /\ Z.of_nat (List.length grid) = 20
       /\ (forall row, In row grid ->
           Z.of_nat (List.length row) = 30
           /\ forall c, In c row -> In c GameDisplay.cell_texts)
       /\ (forall grid',
             (forall row, In row grid' ->
                Z.of_nat (List.length row) = 30
                /\ forall c, In c row -> In c GameDisplay.cell_texts) ->
             GameDisplay.field_text 30 grid' = GameDisplay.field_text 30 grid ->
             grid' = grid)
       /\ GameDisplay.cell_at grid
            (Food.get_position (food Scripted.after_win))
          = GameDisplay._colored_char GameDisplay.FOOD GameDisplay.RED
       /\ (is_game_over Scripted.after_win = false ->
           forall head tail,
             Snake.get_body (snake Scripted.after_win) = head :: tail ->
             GameDisplay.cell_at grid head
             = GameDisplay._colored_char GameDisplay.SNAKE_HEAD
                 GameDisplay.GREEN
             /\ forall c, In c tail ->
                  GameDisplay.cell_at grid c
                  = GameDisplay._colored_char GameDisplay.SNAKE_BODY
                      GameDisplay.GREEN).
Proof.
  split; [exact sample_game_runs|].
  exact (field_shows_food_and_snake (R := random) _ _ _ _ _ _ _ _ []
           sample_game_runs).
Defined.

Lemma game_over_screen_totals_sample :
  Play.play 6 30 20 Scripted.game Scripted.tape_start
  = Ok ((Scripted.after_win, 50%nat), [])
  /\ exists lines,
       GameDisplay.show_game_over Scripted.after_win = Ok lines
       /\ In ("Total Food Eaten: " ++ str (Z.of_nat 50))%string lines
       /\ In ("Final Score: "
               ++ str (10 * Z.of_nat 50
                       + 50 * (level Scripted.after_win - 1)))%string lines
       /\ (In "🎉 CONGRATULATIONS! 🎉"%string lines <-> 50%nat = 50%nat).
Proof.
  split; [exact sample_game_runs|].
  exact (game_over_screen_totals (R := random) _ _ _ _ _ _ _ _
           sample_game_runs).
Defined.

Lemma level_complete_screen_sample :
  Play.play 6 30 20 Scripted.game Scripted.tape_start
  = Ok ((Scripted.after_win, 50%nat), [])
  /\ foods_per_level Scripted.after_win <= foods_eaten Scripted.after_win
  /\ GameDisplay.show_level_complete Scripted.after_win
     = ["🐍 SNAKE GAME 🐍"; GameDisplay.times "=" 50; "";
        "🎉 LEVEL COMPLETE! 🎉"; "";
        "Level 9 completed!"; "Score: 950"; "Bonus: +50 points"; "";
        "Next: Level 10"; "Master Challenge - Ultimate test of skill";
        ""; "Press any key to continue..."; "";
        GameDisplay.times "=" 50]%string.
Proof.
  assert (Hfull : foods_per_level Scripted.after_win
                  <= foods_eaten Scripted.after_win)
    by (vm_compute; discriminate).
  split; [exact sample_game_runs|]. split; [exact Hfull|].
  exact (proj2 (proj2 (level_complete_screen_only_at_the_win (R := random)
                         _ _ _ _ _ _ _ _ sample_game_runs)) Hfull).
Defined.
End FurtherSamples.
